(** * MP3 frame header decoding: [MP3StreamParser::ParseFrameHeader]

    A shallow embedding of [media/formats/mpeg/mp3_stream_parser.cc] and the
    properties of its header decoder.  The C++ function reads ten bit fields
    from the first four bytes of a buffer, validates them against four constant
    tables, and stores the derived frame size, sample rate, channel layout and
    sample count through caller-supplied pointers.

    Layout of the development:
    - [Int32]  : the arithmetic of the C++ type [int], with its wrap-around;
    - [Tables] : the constant tables and field constants of the file;
    - [Bits]   : the bit reader the decoder is built on;
    - [Mem]    : pointers, the store, and the monad the function body runs in;
    - the decoder: [ReadHeaderFields], [decode_fields], [ParseFrameHeader];
    - the quantities of the validation algorithm as functions of the header
      fields, and [summary], one call by cases;
    - facts about [int] arithmetic, the bit reader and the tables;
    - the simulation lemma [ParseFrameHeader_summary];
    - the properties of the decoder, C1 to C10. *)

From Stdlib Require Import ZArith Lia Bool List.
From stdpp Require Import base option list gmap.

Local Open Scope Z_scope.

(* ===================================================================== *)
(** ** 32-bit signed integers *)
(* ===================================================================== *)

Module Int32.

Definition min_int : Z := - 2 ^ 31.
Definition max_int : Z := 2 ^ 31 - 1.

(** Two's complement reduction to the range of [int]. *)
Definition wrap (z : Z) : Z := (z + 2 ^ 31) mod 2 ^ 32 - 2 ^ 31.

Definition in_range (z : Z) : Prop := min_int <= z <= max_int.

Definition add (a b : Z) : Z := wrap (a + b).
Definition mul (a b : Z) : Z := wrap (a * b).
(** C++ [/] on [int] truncates towards zero. *)
Definition div (a b : Z) : Z := wrap (Z.quot a b).

End Int32.

Infix "+i" := Int32.add (at level 50, left associativity).
Infix "*i" := Int32.mul (at level 40, left associativity).
Infix "/i" := Int32.div (at level 40, left associativity).

(* ===================================================================== *)
(** ** Constant tables and field constants *)
(* ===================================================================== *)

Module Tables.

(** Aggregate initialisation of a C++ array of [n] elements from a shorter
    initialiser list: the missing elements are value-initialised. *)
Definition fill {A} (n : nat) (d : A) (l : list A) : list A :=
  l ++ replicate (n - length l) d.

(** [T name[rows][cols] = { {...}, ... }]. *)
Definition table {A} (rows cols : nat) (d : A) (l : list (list A))
  : list (list A) :=
  fill rows (replicate cols d) (fill cols d <$> l).

(** [t[i][j]]; [None] stands for an access outside the array. *)
Definition index2 {A} (t : list (list A)) (i j : Z) : option A :=
  if (i <? 0) || (j <? 0) then None
  else row ← t !! Z.to_nat i; row !! Z.to_nat j.

Definition kIsAllowed : list (list bool) := table 17 4 false [
  [ true; true; true; true ];      (* free *)
  [ true; false; false; false ];   (* 32 *)
  [ true; false; false; false ];   (* 48 *)
  [ true; false; false; false ];   (* 56 *)
  [ true; true; true; true ];      (* 64 *)
  [ true; false; false; false ];   (* 80 *)
  [ true; true; true; true ];      (* 96 *)
  [ true; true; true; true ];      (* 112 *)
  [ true; true; true; true ];      (* 128 *)
  [ true; true; true; true ];      (* 160 *)
  [ true; true; true; true ];      (* 192 *)
  [ false; true; true; true ];     (* 224 *)
  [ false; true; true; true ];     (* 256 *)
  [ false; true; true; true ];     (* 320 *)
  [ false; true; true; true ];     (* 384 *)
  [ false; false; false; false ]   (* bad *)
].

Definition kVersionLayerMap : list (list Z) := table 4 4 0 [
  (* { reserved, L3, L2, L1 } *)
  [ 5; 4; 4; 3 ];  (* MPEG 2.5 *)
  [ 5; 5; 5; 5 ];  (* reserved *)
  [ 5; 4; 4; 3 ];  (* MPEG 2 *)
  [ 5; 2; 1; 0 ]   (* MPEG 1 *)
].

Definition kBitrateMap : list (list Z) := table 16 6 0 [
  (* { V1L1, V1L2, V1L3, V2L1, V2L2 & V2L3, reserved } *)
  [ 0; 0; 0; 0; 0; 0 ];
  [ 32; 32; 32; 32; 8; 0 ];
  [ 64; 48; 40; 48; 16; 0 ];
  [ 96; 56; 48; 56; 24; 0 ];
  [ 128; 64; 56; 64; 32; 0 ];
  [ 160; 80; 64; 80; 40; 0 ];
  [ 192; 96; 80; 96; 48; 0 ];
  [ 224; 112; 96; 112; 56; 0 ];
  [ 256; 128; 112; 128; 64; 0 ];
  [ 288; 160; 128; 144; 80; 0 ];
  [ 320; 192; 160; 160; 96; 0 ];
  [ 352; 224; 192; 176; 112; 0 ];
  [ 384; 256; 224; 192; 128; 0 ];
  [ 416; 320; 256; 224; 144; 0 ];
  [ 448; 384; 320; 256; 160; 0 ];
  [ 0; 0; 0; 0; 0 ]
].

Definition kSampleRateMap : list (list Z) := table 4 4 0 [
  (* { V2.5, reserved, V2, V1 } *)
  [ 11025; 0; 22050; 44100 ];
  [ 12000; 0; 24000; 48000 ];
  [ 8000; 0; 16000; 32000 ];
  [ 0; 0; 0; 0 ]
].

(** Frame header field constants. *)
Definition kVersion2 : Z := 2.
Definition kVersionReserved : Z := 1.
Definition kVersion2_5 : Z := 0.
Definition kLayerReserved : Z := 0.
Definition kLayer1 : Z := 3.
Definition kLayer2 : Z := 2.
Definition kLayer3 : Z := 1.
Definition kBitrateFree : Z := 0.
Definition kBitrateBad : Z := 0xf.
Definition kSampleRateReserved : Z := 3.

End Tables.

(* ===================================================================== *)
(** ** The bit reader *)
(* ===================================================================== *)

Module Bits.

(** Modelled from the spec: the class [BitReader] (its constructor and
    [ReadBits]) is declared outside this file.  It extracts a given number
    of bits from a fixed byte buffer, most significant bit first, advancing
    a cursor, and fails when the request would read past the end of the
    buffer. *)
Record BitReader := mkBitReader {
  br_data : list Byte.byte;   (* the bytes the reader may look at *)
  br_pos : nat                (* bits already consumed *)
}.

(** [BitReader reader(data, size)]. *)
Definition new_reader (data : list Byte.byte) (size : Z) : BitReader :=
  mkBitReader (take (Z.to_nat size) data) 0.

Definition bits_available (r : BitReader) : nat :=
  8 * length (br_data r) - br_pos r.

Definition byte_val (b : Byte.byte) : Z := Z.of_N (Byte.to_N b).

(** The bit at absolute position [p], counted from the most significant
    bit of the first byte. *)
Definition bit_at (d : list Byte.byte) (p : nat) : Z :=
  match d !! (p / 8)%nat with
  | Some b => Z.b2z (Z.testbit (byte_val b) (7 - Z.of_nat (p mod 8)))
  | None => 0
  end.

Fixpoint take_bits (d : list Byte.byte) (n p : nat) (acc : Z) : Z :=
  match n with
  | O => acc
  | S n' => take_bits d n' (S p) (2 * acc + bit_at d p)
  end.

(** [reader.ReadBits(n, &out)]: [Some (out, reader')] on success. *)
Definition ReadBits (n : nat) (r : BitReader) : option (Z * BitReader) :=
  if decide (n ≤ bits_available r)%nat
  then Some (take_bits (br_data r) n (br_pos r) 0,
             mkBitReader (br_data r) (br_pos r + n))
  else None.

End Bits.

(* ===================================================================== *)
(** ** Pointers, the store and the execution monad *)
(* ===================================================================== *)

Module Mem.

(** [enum ChannelLayout] is declared outside this file; only the two
    enumerators the decoder stores are needed. *)
Inductive ChannelLayout := CHANNEL_LAYOUT_MONO | CHANNEL_LAYOUT_STEREO.

(** What a location holds: an [int] or a [ChannelLayout]. *)
Inductive val := VInt (z : Z) | VLayout (c : ChannelLayout).

(** A pointer is null ([None]) or the address of a location. *)
Definition ptr : Type := option positive.

(** The store, with the set of addresses stored to so far. *)
Record state := mkState {
  heap : gmap positive val;
  written : gset positive
}.

(** One step of the function body: it goes on with a value, leaves the
    function through [return rv;], or has undefined behaviour. *)
Inductive result (A : Type) :=
| Next (a : A) (s : state)
| Return (rv : Z) (s : state)
| Crash.
Arguments Next {A} a s.
Arguments Return {A} rv s.
Arguments Crash {A}.

Definition M (A : Type) : Type := state → result A.

#[global] Instance M_ret : MRet M := λ A a s, Next a s.
#[global] Instance M_bind : MBind M := λ A B f m s,
  match m s with
  | Next a s' => f a s'
  | Return rv s' => Return rv s'
  | Crash => Crash
  end.

(** [return rv;] *)
Definition return_ {A} (rv : Z) : M A := λ s, Return rv s.
Definition crash {A} : M A := λ _, Crash.

(** [if (c) stmt] *)
Definition when (c : bool) (stmt : M ()) : M () := if c then stmt else mret ().

(** A pointer in a condition: [if (p)]. *)
Definition nonnull (p : ptr) : bool :=
  match p with Some _ => true | None => false end.

(** [*p = v]; storing through a null pointer is undefined. *)
Definition store (p : ptr) (v : val) : M () := λ s,
  match p with
  | Some a => Next () (mkState (<[a:=v]> (heap s)) ({[a]} ∪ written s))
  | None => Crash
  end.

(** Reading [*p] where [p] is an [int*]. *)
Definition load_int (p : ptr) : M Z := λ s,
  match p with
  | Some a => match heap s !! a with
              | Some (VInt z) => Next z s
              | _ => Crash
              end
  | None => Crash
  end.

(** An array access; outside the array it is undefined. *)
Definition at2 {A} (t : list (list A)) (i j : Z) : M A :=
  match Tables.index2 t i j with
  | Some x => mret x
  | None => crash
  end.

(** What a call of an [int] function yields. *)
Inductive outcome :=
| Returns (rv : Z) (s : state)
| Undefined.

(** Running a function body; flowing off its end without [return] is
    undefined for a function returning [int]. *)
Definition call (body : M ()) (s : state) : outcome :=
  match body s with
  | Return rv s' => Returns rv s'
  | Next _ _ | Crash => Undefined
  end.

End Mem.

(* ===================================================================== *)
(** ** The decoder *)
(* ===================================================================== *)

Import Tables Bits Mem.

(** The ten local variables the header is read into. *)
Record Header := mkHeader {
  sync : Z;
  version : Z;
  layer : Z;
  is_protected : Z;
  bitrate_index : Z;
  sample_rate_index : Z;
  has_padding : Z;
  is_private : Z;
  channel_mode : Z;
  other_flags : Z
}.

(** The chain of [ReadBits] calls of lines 120-129; [None] when one of them
    fails, which makes the [||] chain true. *)
Definition ReadHeaderFields (reader : BitReader) : option Header :=
  '(sync, reader) ← ReadBits 11 reader;
  '(version, reader) ← ReadBits 2 reader;
  '(layer, reader) ← ReadBits 2 reader;
  '(is_protected, reader) ← ReadBits 1 reader;
  '(bitrate_index, reader) ← ReadBits 4 reader;
  '(sample_rate_index, reader) ← ReadBits 2 reader;
  '(has_padding, reader) ← ReadBits 1 reader;
  '(is_private, reader) ← ReadBits 1 reader;
  '(channel_mode, reader) ← ReadBits 2 reader;
  '(other_flags, reader) ← ReadBits 6 reader;
  Some (mkHeader sync version layer is_protected bitrate_index
          sample_rate_index has_padding is_private channel_mode other_flags).

(** The condition of lines 141-145. *)
Definition reserved_fields (h : Header) : bool :=
  negb (sync h =? 0x7ff) ||
  (version h =? kVersionReserved) ||
  (layer h =? kLayerReserved) ||
  (bitrate_index h =? kBitrateFree) || (bitrate_index h =? kBitrateBad) ||
  (sample_rate_index h =? kSampleRateReserved).

(** Lines 141-236, with the header fields in [h]. *)
Definition decode_fields (h : Header)
    (frame_size sample_rate channel_layout sample_count : ptr) : M () :=
  when (reserved_fields h) (return_ (-1));;
  invalid_combination ←
    (if layer h =? kLayer2
     then at2 kIsAllowed (bitrate_index h) (channel_mode h)
     else mret false);
  when invalid_combination (return_ (-1));;
  column ← at2 kVersionLayerMap (version h) (layer h);
  bitrate ← at2 kBitrateMap (bitrate_index h) column;
  when (bitrate =? 0) (return_ (-1));;
  frame_sample_rate ← at2 kSampleRateMap (sample_rate_index h) (version h);
  when (frame_sample_rate =? 0) (return_ (-1));;
  when (nonnull sample_rate) (store sample_rate (VInt frame_sample_rate));;
  samples_per_frame ←
    (if layer h =? kLayer1 then mret 384
     else if layer h =? kLayer2 then mret 1152
     else if layer h =? kLayer3 then
       if (version h =? kVersion2) || (version h =? kVersion2_5)
       then mret 576
       else mret 1152
     else return_ (-1));
  when (nonnull sample_count) (store sample_count (VInt samples_per_frame));;
  (if layer h =? kLayer1
   then store frame_size
          (VInt (4 *i (12 *i bitrate *i 1000 /i frame_sample_rate)))
   else store frame_size
          (VInt (((samples_per_frame /i 8) *i bitrate *i 1000)
                 /i frame_sample_rate)));;
  when (negb (has_padding h =? 0))
    (old ← load_int frame_size;
     store frame_size (VInt (old +i (if layer h =? kLayer1 then 4 else 1))));;
  when (nonnull channel_layout)
    (store channel_layout
       (VLayout (if channel_mode h =? 3
                 then CHANNEL_LAYOUT_MONO else CHANNEL_LAYOUT_STEREO)));;
  return_ 4.

(** [MP3StreamParser::ParseFrameHeader].  The three [DCHECK]s of lines
    101-103 state what the caller owes ([data] and [frame_size] are not
    null, [size] is not negative); they do not change behaviour and have
    no counterpart here. *)
Definition ParseFrameHeader (data : list Byte.byte) (size : Z)
    (frame_size sample_rate channel_layout sample_count : ptr)
    : state → outcome :=
  call (
    when (size <? 4) (return_ 0);;
    let reader := new_reader data size in
    match ReadHeaderFields reader with
    | None => return_ (-1)
    | Some h =>
        decode_fields h frame_size sample_rate channel_layout sample_count
    end).

(* ===================================================================== *)
(** ** The header fields: ranges, derived quantities, acceptance *)
(* ===================================================================== *)

(** The values ten successful [ReadBits] calls can leave in the fields. *)
Record header_ranges (h : Header) : Prop := {
  sync_range : 0 <= sync h < 2048;
  version_range : 0 <= version h < 4;
  layer_range : 0 <= layer h < 4;
  is_protected_range : 0 <= is_protected h < 2;
  bitrate_index_range : 0 <= bitrate_index h < 16;
  sample_rate_index_range : 0 <= sample_rate_index h < 4;
  has_padding_range : 0 <= has_padding h < 2;
  is_private_range : 0 <= is_private h < 2;
  channel_mode_range : 0 <= channel_mode h < 4;
  other_flags_range : 0 <= other_flags h < 64
}.

(** The quantities of the validation algorithm and of the frame size
    formulas, written with unbounded integers and flooring division. *)
Definition spec_column (h : Header) : Z :=
  default 0 (index2 kVersionLayerMap (version h) (layer h)).

Definition spec_bitrate (h : Header) : Z :=
  default 0 (index2 kBitrateMap (bitrate_index h) (spec_column h)).

Definition spec_sample_rate (h : Header) : Z :=
  default 0 (index2 kSampleRateMap (sample_rate_index h) (version h)).

Definition spec_sample_count (h : Header) : Z :=
  if layer h =? kLayer1 then 384
  else if layer h =? kLayer2 then 1152
  else if (version h =? kVersion2) || (version h =? kVersion2_5) then 576
  else 1152.

Definition spec_padding (h : Header) : Z :=
  if has_padding h =? 0 then 0
  else if layer h =? kLayer1 then 4 else 1.

Definition spec_frame_size (h : Header) : Z :=
  (if layer h =? kLayer1
   then 4 * (12 * spec_bitrate h * 1000 / spec_sample_rate h)
   else (spec_sample_count h / 8) * spec_bitrate h * 1000
        / spec_sample_rate h)
  + spec_padding h.

Definition spec_layout (h : Header) : ChannelLayout :=
  if channel_mode h =? 3 then CHANNEL_LAYOUT_MONO else CHANNEL_LAYOUT_STEREO.

(** The entry of [kIsAllowed] the Layer II check looks at. *)
Definition allowed_entry (h : Header) : bool :=
  default false (index2 kIsAllowed (bitrate_index h) (channel_mode h)).

(** The headers on which no [return -1] of the function fires. *)
Definition accepts (h : Header) : bool :=
  negb (reserved_fields h) &&
  negb ((layer h =? kLayer2) && allowed_entry h) &&
  negb (spec_bitrate h =? 0) &&
  negb (spec_sample_rate h =? 0).

(** [*p = v] when [p] is not null, nothing otherwise. *)
Definition put (p : ptr) (v : val) (m : gmap positive val) : gmap positive val :=
  match p with Some a => <[a:=v]> m | None => m end.

Definition mark (p : ptr) (W : gset positive) : gset positive :=
  match p with Some a => {[a]} ∪ W | None => W end.

(** The location a pointer designates, as a set. *)
Definition target (p : ptr) : gset positive :=
  match p with Some a => {[a]} | None => ∅ end.

(** The state an accepting call leaves, in the order of its stores. *)
Definition stored (h : Header) (fs : positive) (sr cl sc : ptr) (s : state)
  : state :=
  mkState
    (put cl (VLayout (spec_layout h))
       (<[fs := VInt (spec_frame_size h)]>
          (put sc (VInt (spec_sample_count h))
             (put sr (VInt (spec_sample_rate h)) (heap s)))))
    (mark cl ({[fs]} ∪ mark sc (mark sr (written s)))).

(** What a call yields, by cases on the size, the reads and [accepts]. *)
Definition summary (data : list Byte.byte) (size : Z)
    (frame_size sample_rate channel_layout sample_count : ptr) (s : state)
    : outcome :=
  if size <? 4 then Returns 0 s
  else match ReadHeaderFields (new_reader data size) with
       | None => Returns (-1) s
       | Some h =>
           if accepts h then
             match frame_size with
             | Some fs =>
                 Returns 4 (stored h fs sample_rate channel_layout
                              sample_count s)
             | None => Undefined
             end
           else Returns (-1) s
       end.

(** Modelled from the spec: how the caller reads the return value (the
    base class that calls the decoder is outside this file).  A positive
    value is the number of header bytes consumed; 0 (insufficient data) and
    the negative invalid-header signal consume nothing. *)
Definition bytes_consumed (rv : Z) : Z := Z.max rv 0.

(** The header [h] with its padding field replaced. *)
Definition with_padding (p : Z) (h : Header) : Header :=
  mkHeader (sync h) (version h) (layer h) (is_protected h) (bitrate_index h)
    (sample_rate_index h) p (is_private h) (channel_mode h) (other_flags h).

(** The header FF FB 90 00: MPEG1, Layer III, bitrate index 9 (128 kbps),
    sample rate index 0 (44100 Hz), no padding, stereo. *)
Definition mp3_128k_44100 : list Byte.byte :=
  [Byte.xff; Byte.xfb; Byte.x90; Byte.x00].

(** The header FF FD 80 00: MPEG1, Layer II, bitrate index 8 (128 kbps),
    stereo; [kIsAllowed[8][0]] is [true]. *)
Definition layer2_128k_stereo : list Byte.byte :=
  [Byte.xff; Byte.xfd; Byte.x80; Byte.x00].

(** The header FF FD 10 40: MPEG1, Layer II, bitrate index 1 (32 kbps),
    joint stereo; [kIsAllowed[1][1]] is [false]. *)
Definition layer2_32k_joint : list Byte.byte :=
  [Byte.xff; Byte.xfd; Byte.x10; Byte.x40].

(** The header FF EB 90 00: as the first, with the reserved version code. *)
Definition reserved_version : list Byte.byte :=
  [Byte.xff; Byte.xeb; Byte.x90; Byte.x00].

Definition empty_state : state := mkState ∅ ∅.

(** Checking a boolean property on every index pair of a [n] x [m] array. *)
Definition below (n : nat) : list Z := Z.of_nat <$> seq 0 n.

Definition all_pairs (n m : nat) (P : Z → Z → bool) : bool :=
  forallb (λ i, forallb (P i) (below m)) (below n).

(** An entry that exists and satisfies [Q]. *)
Definition entry_sat {A} (t : list (list A)) (Q : A → bool) (i j : Z) : bool :=
  match index2 t i j with Some x => Q x | None => false end.

(* ===================================================================== *)
(** ** The start code, the header word and the decoded fields *)
(* ===================================================================== *)

(** [kMP3StartCodeMask], line 9: the constant the constructor hands to the
    base class. *)
Definition kMP3StartCodeMask : Z := 0xffe00000.

(** Four bytes as one 32-bit word, first byte most significant. *)
Definition header_word (b0 b1 b2 b3 : Byte.byte) : Z :=
  byte_val b0 * 2 ^ 24 + byte_val b1 * 2 ^ 16 + byte_val b2 * 2 ^ 8
  + byte_val b3.

(** Two headers that agree on the seven fields lines 141-236 look at; the
    protection bit, the private bit and the six trailing bits are free. *)
Definition same_decoded_fields (h h' : Header) : Prop :=
  sync h = sync h' ∧ version h = version h' ∧ layer h = layer h' ∧
  bitrate_index h = bitrate_index h' ∧
  sample_rate_index h = sample_rate_index h' ∧
  has_padding h = has_padding h' ∧ channel_mode h = channel_mode h'.

(** A header with the sync pattern and the six fields that vary. *)
Definition frame_header (v l bi sri p cm : Z) : Header :=
  mkHeader 0x7ff v l 0 bi sri p 0 cm 0.

(** Checking a boolean property on every such header the reads can give. *)
Definition all_frame_headers (P : Header → bool) : bool :=
  forallb (λ v, forallb (λ l, forallb (λ bi, forallb (λ sri,
    forallb (λ p, forallb (λ cm, P (frame_header v l bi sri p cm))
      (below 4)) (below 2)) (below 4)) (below 16)) (below 4)) (below 4).

(** The frame length in bytes before flooring, as a fraction
    [numerator / rate], and the slot size of the layer. *)
Definition frame_numerator (h : Header) : Z :=
  (spec_sample_count h / 8) * spec_bitrate h * 1000.

Definition slot_size (h : Header) : Z :=
  if layer h =? kLayer1 then 4 else 1.

(* ===================================================================== *)
(** ** [int] arithmetic without overflow *)
(* ===================================================================== *)

Section Int32Facts.

Lemma wrap_id z : Int32.in_range z → Int32.wrap z = z.
Proof.
  unfold Int32.in_range, Int32.min_int, Int32.max_int, Int32.wrap. intros Hz.
  rewrite Z.mod_small; lia.
Qed.

Lemma wrap_in_range z : Int32.in_range (Int32.wrap z).
Proof.
  unfold Int32.in_range, Int32.min_int, Int32.max_int, Int32.wrap.
  pose proof (Z.mod_pos_bound (z + 2 ^ 31) (2 ^ 32)). lia.
Qed.

Lemma mul_small a b :
  0 <= a → 0 <= b → a * b <= Int32.max_int → a *i b = a * b.
Proof.
  intros. apply wrap_id. unfold Int32.in_range, Int32.min_int in *. nia.
Qed.

Lemma add_small a b :
  0 <= a → 0 <= b → a + b <= Int32.max_int → a +i b = a + b.
Proof.
  intros. apply wrap_id. unfold Int32.in_range, Int32.min_int in *. lia.
Qed.

Lemma div_small a b :
  0 <= a <= Int32.max_int → 0 < b → a /i b = a / b.
Proof.
  intros Ha Hb. unfold Int32.div. rewrite Z.quot_div_nonneg by lia.
  apply wrap_id. unfold Int32.in_range, Int32.min_int in *.
  pose proof (Z.div_pos a b). pose proof (Z.div_le_upper_bound a b a).
  nia.
Qed.

End Int32Facts.

(* ===================================================================== *)
(** ** Facts about the bit reader *)
(* ===================================================================== *)

Section BitReaderFacts.

Lemma bit_at_bounds d p : 0 <= bit_at d p <= 1.
Proof.
  unfold bit_at. destruct (d !! _); [|lia].
  destruct (Z.testbit _ _); simpl; lia.
Qed.

Lemma take_bits_bounds d n : ∀ p acc,
  2 ^ Z.of_nat n * acc <= take_bits d n p acc < 2 ^ Z.of_nat n * (acc + 1).
Proof.
  induction n as [|n IH]; intros p acc.
  - simpl. lia.
  - cbn [take_bits]. specialize (IH (S p) (2 * acc + bit_at d p)).
    pose proof (bit_at_bounds d p) as Hb.
    rewrite Nat2Z.inj_succ, Z.pow_succ_r by lia.
    assert (0 < 2 ^ Z.of_nat n) by (apply Z.pow_pos_nonneg; lia).
    nia.
Qed.

Lemma ReadBits_Some n r :
  (br_pos r + n ≤ 8 * length (br_data r))%nat →
  ReadBits n r = Some (take_bits (br_data r) n (br_pos r) 0,
                       mkBitReader (br_data r) (br_pos r + n)).
Proof.
  intros Hle. unfold ReadBits, bits_available.
  destruct (decide _); [done | lia].
Qed.

Lemma ReadBits_range n r v r' :
  ReadBits n r = Some (v, r') → 0 <= v < 2 ^ Z.of_nat n.
Proof.
  unfold ReadBits. destruct (decide _); [|done].
  intros [= <- _]. pose proof (take_bits_bounds (br_data r) n (br_pos r) 0).
  lia.
Qed.

End BitReaderFacts.

Lemma ReadHeaderFields_ranges r h :
  ReadHeaderFields r = Some h → header_ranges h.
Proof.
  unfold ReadHeaderFields. intros Hread.
  repeat match type of Hread with
  | context [ReadBits ?n ?r] =>
      let E := fresh "E" in
      destruct (ReadBits n r) as [[? ?]|] eqn:E; simpl in Hread;
      [apply ReadBits_range in E | discriminate]
  end.
  injection Hread as <-. constructor; simpl; assumption.
Qed.

(** With four bytes in reach the ten reads cannot run out of bits. *)
Lemma ReadHeaderFields_total data size :
  4 <= size → (4 ≤ length data)%nat →
  is_Some (ReadHeaderFields (new_reader data size)).
Proof.
  intros Hsize Hlen. unfold ReadHeaderFields, new_reader.
  assert (4 ≤ length (take (Z.to_nat size) data))%nat as Htake
    by (rewrite length_take; lia).
  repeat (rewrite ReadBits_Some by (simpl; lia); simpl).
  eauto.
Qed.

(* ===================================================================== *)
(** ** Facts about the tables *)
(* ===================================================================== *)

Section TableFacts.

Lemma elem_of_below n z : 0 <= z < Z.of_nat n → In z (below n).
Proof.
  intros Hz. unfold below. apply in_map_iff. exists (Z.to_nat z).
  split; [lia | apply in_seq; lia].
Qed.

Lemma all_pairs_spec n m P :
  all_pairs n m P = true →
  ∀ i j, 0 <= i < Z.of_nat n → 0 <= j < Z.of_nat m → P i j = true.
Proof.
  unfold all_pairs. intros Hall i j Hi Hj.
  rewrite forallb_forall in Hall.
  specialize (Hall i (elem_of_below _ _ Hi)).
  rewrite forallb_forall in Hall.
  exact (Hall j (elem_of_below _ _ Hj)).
Qed.

Lemma entry_sat_spec {A} (t : list (list A)) Q n m :
  all_pairs n m (entry_sat t Q) = true →
  ∀ i j, 0 <= i < Z.of_nat n → 0 <= j < Z.of_nat m →
    ∃ x, index2 t i j = Some x ∧ Q x = true.
Proof.
  intros Hall i j Hi Hj.
  pose proof (all_pairs_spec _ _ _ Hall i j Hi Hj) as Hij.
  unfold entry_sat in Hij. destruct (index2 t i j) as [x|]; [eauto | done].
Qed.

Lemma kIsAllowed_defined i j :
  0 <= i < 17 → 0 <= j < 4 → is_Some (index2 kIsAllowed i j).
Proof.
  intros Hi Hj.
  destruct (entry_sat_spec kIsAllowed (λ _, true) 17 4) with i j
    as (x & -> & _); [by vm_compute | lia | lia | eauto].
Qed.

(** Every entry of the bitrate table is 0 or lies between 8 and 448. *)
Lemma kBitrateMap_entries i j :
  0 <= i < 16 → 0 <= j < 6 →
  ∃ b, index2 kBitrateMap i j = Some b ∧ (b = 0 ∨ 8 <= b <= 448).
Proof.
  intros Hi Hj.
  destruct (entry_sat_spec kBitrateMap
              (λ b, (b =? 0) || ((8 <=? b) && (b <=? 448))) 16 6) with i j
    as (b & Hb & HQ); [by vm_compute | lia | lia |].
  exists b. split; [done | lia].
Qed.

(** Every entry of the sample rate table is 0 or one of the nine rates. *)
Lemma kSampleRateMap_entries i j :
  0 <= i < 4 → 0 <= j < 4 →
  ∃ r, index2 kSampleRateMap i j = Some r ∧ (r = 0 ∨ 8000 <= r <= 48000).
Proof.
  intros Hi Hj.
  destruct (entry_sat_spec kSampleRateMap
              (λ r, (r =? 0) || ((8000 <=? r) && (r <=? 48000))) 4 4) with i j
    as (r & Hr & HQ); [by vm_compute | lia | lia |].
  exists r. split; [done | lia].
Qed.

(** The column selector is at most 5, and 5 only in the reserved row and
    the reserved column. *)
Lemma kVersionLayerMap_entries v l :
  0 <= v < 4 → 0 <= l < 4 →
  ∃ c, index2 kVersionLayerMap v l = Some c ∧ 0 <= c <= 5 ∧
       (v ≠ kVersionReserved → l ≠ kLayerReserved → c <= 4).
Proof.
  intros Hv Hl. unfold kVersionReserved, kLayerReserved.
  assert (all_pairs 4 4
            (λ v l, match index2 kVersionLayerMap v l with
                    | Some c => (0 <=? c) && (c <=? 5) &&
                                ((v =? 1) || (l =? 0) || (c <=? 4))
                    | None => false
                    end) = true) as Hall by (by vm_compute).
  pose proof (all_pairs_spec _ _ _ Hall v l) as Hvl. cbv beta in Hvl.
  destruct (index2 kVersionLayerMap v l) as [c|]; [|lia].
  exists c. split; [done | lia].
Qed.

End TableFacts.

(* ===================================================================== *)
(** ** The decoder against the derived quantities *)
(* ===================================================================== *)

Section FrameSizeArithmetic.

Context (b r : Z) (Hb : 8 <= b <= 448) (Hr : 8000 <= r <= 48000).

(** The Layer I expression of line 220 does not overflow. *)
Lemma layer1_size_exact :
  4 *i (12 *i b *i 1000 /i r) = 4 * (12 * b * 1000 / r) ∧
  8 <= 4 * (12 * b * 1000 / r) <= 2688.
Proof.
  unfold Int32.max_int in *.
  assert (2 <= 12 * b * 1000 / r <= 672) as Hq.
  { split; [apply Z.div_le_lower_bound | apply Z.div_le_upper_bound]; lia. }
  rewrite (mul_small 12 b), (mul_small (12 * b) 1000),
    (div_small (12 * b * 1000) r), (mul_small 4)
    by (unfold Int32.max_int; lia).
  lia.
Qed.

(** Nor does the Layer II/III expression of lines 222-223. *)
Lemma layer23_size_exact spf :
  spf = 384 ∨ spf = 576 ∨ spf = 1152 →
  spf /i 8 *i b *i 1000 /i r = spf / 8 * b * 1000 / r ∧
  8 <= spf / 8 * b * 1000 / r <= 8064.
Proof.
  intros Hspf.
  assert (spf / 8 = 48 ∨ spf / 8 = 72 ∨ spf / 8 = 144) as Hs
    by (destruct Hspf as [-> | [-> | ->]]; vm_compute; auto).
  assert (48 <= spf / 8 <= 144) as Hs' by lia. clear Hs.
  assert (8 <= spf / 8 * b * 1000 / r <= 8064) as Hq.
  { split; [apply Z.div_le_lower_bound | apply Z.div_le_upper_bound]; nia. }
  rewrite (div_small spf 8), (mul_small (spf / 8) b),
    (mul_small (spf / 8 * b) 1000), (div_small (spf / 8 * b * 1000) r)
    by (unfold Int32.max_int; nia).
  lia.
Qed.

End FrameSizeArithmetic.

Lemma store_twice (a : positive) (W : gset positive) :
  {[a]} ∪ ({[a]} ∪ W) = {[a]} ∪ W.
Proof. set_solver. Qed.

Section Simulation.

Context (h : Header) (Hh : header_ranges h).

(** The lookups of one call all land inside their arrays. *)
Lemma lookups_defined :
  index2 kIsAllowed (bitrate_index h) (channel_mode h)
    = Some (allowed_entry h) ∧
  index2 kVersionLayerMap (version h) (layer h) = Some (spec_column h) ∧
  index2 kBitrateMap (bitrate_index h) (spec_column h)
    = Some (spec_bitrate h) ∧
  index2 kSampleRateMap (sample_rate_index h) (version h)
    = Some (spec_sample_rate h) ∧
  (spec_bitrate h = 0 ∨ 8 <= spec_bitrate h <= 448) ∧
  (spec_sample_rate h = 0 ∨ 8000 <= spec_sample_rate h <= 48000).
Proof.
  destruct Hh.
  unfold allowed_entry, spec_bitrate, spec_sample_rate, spec_column.
  destruct (kIsAllowed_defined (bitrate_index h) (channel_mode h))
    as [a ->]; [lia..|].
  destruct (kVersionLayerMap_entries (version h) (layer h))
    as (c & -> & Hcr & _); [lia..|]. simpl.
  destruct (kBitrateMap_entries (bitrate_index h) c)
    as (b & -> & Hbr); [lia..|].
  destruct (kSampleRateMap_entries (sample_rate_index h) (version h))
    as (r & -> & Hrr); [lia..|].
  done.
Qed.

Ltac unfold_body :=
  unfold decode_fields, mbind, M_bind, when, at2, mret, M_ret, return_, crash.

Ltac layer_tests :=
  change (kLayer1 =? kLayer1) with true in *;
  change (kLayer1 =? kLayer2) with false in *;
  change (kLayer2 =? kLayer1) with false in *;
  change (kLayer2 =? kLayer2) with true in *;
  change (kLayer3 =? kLayer1) with false in *;
  change (kLayer3 =? kLayer2) with false in *;
  change (kLayer3 =? kLayer3) with true in *;
  cbn [andb] in *.

Ltac use_lookups :=
  destruct lookups_defined as (Ha & Hc & Hb & Hr & Hbr & Hrr);
  rewrite ?Ha, ?Hc, ?Hb, ?Hr.

Lemma decode_fields_rejects fs sr cl sc s :
  accepts h = false → decode_fields h fs sr cl sc s = Return (-1) s.
Proof.
  unfold accepts. intros Hacc. unfold_body. use_lookups.
  destruct (reserved_fields h); [done|].
  destruct (layer h =? kLayer2), (allowed_entry h); try done;
    destruct (spec_bitrate h =? 0); try done;
    destruct (spec_sample_rate h =? 0); done.
Qed.

Lemma accepts_layer :
  accepts h = true →
  layer h = kLayer1 ∨ layer h = kLayer2 ∨ layer h = kLayer3.
Proof.
  destruct Hh. unfold accepts, reserved_fields, kLayerReserved, kLayer1, kLayer2, kLayer3.
  intros Hacc. lia.
Qed.

Lemma spec_sample_count_values :
  spec_sample_count h = 384 ∨ spec_sample_count h = 576 ∨
  spec_sample_count h = 1152.
Proof.
  unfold spec_sample_count.
  repeat match goal with |- context [if ?c then _ else _] => destruct c end;
    auto.
Qed.

Lemma decode_fields_accepts fs sr cl sc s :
  accepts h = true →
  decode_fields h (Some fs) sr cl sc s = Return 4 (stored h fs sr cl sc s).
Proof.
  intros Hacc. pose proof (accepts_layer Hacc) as Hlayer.
  pose proof spec_sample_count_values as Hcount.
  unfold accepts in Hacc. unfold_body. use_lookups.
  destruct (reserved_fields h); [done|].
  assert ((layer h =? kLayer2) && allowed_entry h = false) as Hcomb
    by (destruct ((layer h =? kLayer2) && allowed_entry h); done).
  assert (8 <= spec_bitrate h <= 448) as Hb' by lia.
  assert (8000 <= spec_sample_rate h <= 48000) as Hr' by lia.
  clear Hacc Hbr Hrr.
  replace (spec_bitrate h =? 0) with false by lia.
  replace (spec_sample_rate h =? 0) with false by lia.
  destruct (layer1_size_exact _ _ Hb' Hr') as [E1 B1].
  destruct (layer23_size_exact _ _ Hb' Hr' _ Hcount) as [E2 B2].
  unfold stored, spec_layout, spec_frame_size, spec_padding,
    spec_sample_count in *.
  destruct Hlayer as [Hl | [Hl | Hl]]; rewrite Hl in *; layer_tests;
    rewrite ?Hcomb; cbv beta iota.
  all: destruct ((version h =? kVersion2) || (version h =? kVersion2_5)).
  all: destruct sr, sc, cl, (has_padding h =? 0).
  all: cbn [nonnull store load_int negb heap written put mark].
  all: rewrite ?lookup_insert_eq, ?E1, ?E2.
  all: cbn [heap written]; rewrite ?insert_insert_eq, ?store_twice.
  all: rewrite ?add_small by (unfold Int32.max_int; lia).
  all: rewrite ?Z.add_0_r; reflexivity.
Qed.

(** Without a place for the frame size an accepting call has undefined
    behaviour: line 220 or 222 stores through the null pointer. *)
Lemma decode_fields_null sr cl sc s :
  accepts h = true → decode_fields h None sr cl sc s = Crash.
Proof.
  intros Hacc. pose proof (accepts_layer Hacc) as Hlayer.
  unfold accepts in Hacc. unfold_body. use_lookups.
  destruct (reserved_fields h); [done|].
  assert ((layer h =? kLayer2) && allowed_entry h = false) as Hcomb
    by (destruct ((layer h =? kLayer2) && allowed_entry h); done).
  replace (spec_bitrate h =? 0) with false by lia.
  replace (spec_sample_rate h =? 0) with false by lia.
  destruct Hlayer as [Hl | [Hl | Hl]]; rewrite Hl in *; layer_tests;
    rewrite ?Hcomb; cbv beta iota.
  all: destruct ((version h =? kVersion2) || (version h =? kVersion2_5)).
  all: destruct sr, sc; reflexivity.
Qed.

End Simulation.

Lemma ParseFrameHeader_summary data size fs sr cl sc s :
  ParseFrameHeader data size fs sr cl sc s = summary data size fs sr cl sc s.
Proof.
  unfold ParseFrameHeader, summary, call, mbind, M_bind, when, return_, mret,
    M_ret.
  destruct (size <? 4); [done|].
  destruct (ReadHeaderFields _) as [h|] eqn:Hread; [|done].
  apply ReadHeaderFields_ranges in Hread.
  destruct (accepts h) eqn:Hacc.
  - destruct fs as [fs|].
    + by rewrite decode_fields_accepts.
    + by rewrite decode_fields_null.
  - by rewrite decode_fields_rejects.
Qed.

Section StoredFacts.

Context (h : Header) (fs : positive) (sr cl sc : ptr) (s : state).

Lemma stored_frame_size :
  cl ≠ Some fs →
  heap (stored h fs sr cl sc s) !! fs = Some (VInt (spec_frame_size h)).
Proof.
  intros Hcl. unfold stored, put; cbn [heap].
  destruct cl as [a|].
  - rewrite lookup_insert_ne by congruence. apply lookup_insert_eq.
  - apply lookup_insert_eq.
Qed.

Lemma stored_sample_count a :
  sc = Some a → a ≠ fs → cl ≠ Some a →
  heap (stored h fs sr cl sc s) !! a = Some (VInt (spec_sample_count h)).
Proof.
  intros -> Hfs Hcl. unfold stored, put; cbn [heap].
  destruct cl as [b|].
  - rewrite lookup_insert_ne by congruence.
    rewrite lookup_insert_ne by congruence. apply lookup_insert_eq.
  - rewrite lookup_insert_ne by congruence. apply lookup_insert_eq.
Qed.

Lemma stored_sample_rate a :
  sr = Some a → a ≠ fs → sc ≠ Some a → cl ≠ Some a →
  heap (stored h fs sr cl sc s) !! a = Some (VInt (spec_sample_rate h)).
Proof.
  intros -> Hfs Hsc Hcl. unfold stored, put; cbn [heap].
  destruct cl as [b|], sc as [c|];
    repeat (rewrite lookup_insert_ne by congruence); apply lookup_insert_eq.
Qed.

Lemma stored_layout a :
  cl = Some a →
  heap (stored h fs sr cl sc s) !! a = Some (VLayout (spec_layout h)).
Proof. intros ->. unfold stored, put; cbn [heap]. apply lookup_insert_eq. Qed.

Lemma stored_written :
  written (stored h fs sr cl sc s)
  = {[fs]} ∪ target sr ∪ target cl ∪ target sc ∪ written s.
Proof.
  unfold stored, mark, target; cbn [written].
  destruct sr, cl, sc; set_solver.
Qed.

Lemma stored_elsewhere a :
  a ∉ ({[fs]} ∪ target sr ∪ target cl ∪ target sc : gset positive) →
  heap (stored h fs sr cl sc s) !! a = heap s !! a.
Proof.
  unfold stored, put, target; cbn [heap]. intros Ha.
  destruct sr, cl, sc;
    repeat (rewrite lookup_insert_ne by set_solver); done.
Qed.

Lemma stored_defined a :
  a ∈ ({[fs]} ∪ target sr ∪ target cl ∪ target sc : gset positive) →
  is_Some (heap (stored h fs sr cl sc s) !! a).
Proof.
  unfold stored, put, target; cbn [heap]. intros Ha.
  destruct sr, cl, sc;
    repeat (rewrite lookup_insert; case_decide; [by eauto|]); set_solver.
Qed.

End StoredFacts.

Section Accepted.

Context (h : Header) (Hh : header_ranges h).

Lemma reserved_fields_false :
  reserved_fields h = false ↔
  sync h = 0x7ff ∧ version h ≠ kVersionReserved ∧ layer h ≠ kLayerReserved ∧
  bitrate_index h ≠ kBitrateFree ∧ bitrate_index h ≠ kBitrateBad ∧
  sample_rate_index h ≠ kSampleRateReserved.
Proof. unfold reserved_fields. lia. Qed.

Lemma accepts_not_reserved : accepts h = true → reserved_fields h = false.
Proof. unfold accepts. destruct (reserved_fields h); [done | done]. Qed.

Lemma accepts_bounds :
  accepts h = true →
  8 <= spec_bitrate h <= 448 ∧ 8000 <= spec_sample_rate h <= 48000 ∧
  8 <= spec_frame_size h.
Proof.
  intros Hacc. destruct (lookups_defined h Hh) as (_ & _ & _ & _ & Hb & Hr).
  unfold accepts in Hacc.
  assert (8 <= spec_bitrate h <= 448) as Hb' by lia.
  assert (8000 <= spec_sample_rate h <= 48000) as Hr' by lia.
  split; [done|]. split; [done|].
  pose proof (layer1_size_exact _ _ Hb' Hr') as [_ B1].
  pose proof (layer23_size_exact _ _ Hb' Hr' _ (spec_sample_count_values h))
    as [_ B2].
  unfold spec_frame_size, spec_padding.
  destruct (layer h =? kLayer1), (has_padding h =? 0); lia.
Qed.

(** Acceptance does not look at the padding bit. *)
Lemma accepts_with_padding p : accepts (with_padding p h) = accepts h.
Proof. reflexivity. Qed.

End Accepted.

Lemma spec_frame_size_padded h :
  has_padding h = 0 →
  spec_frame_size (with_padding 1 h)
  = spec_frame_size h + (if layer h =? kLayer1 then 4 else 1).
Proof.
  intros Hpad.
  change (spec_frame_size (with_padding 1 h)) with
    ((if layer h =? kLayer1
      then 4 * (12 * spec_bitrate h * 1000 / spec_sample_rate h)
      else spec_sample_count h / 8 * spec_bitrate h * 1000
           / spec_sample_rate h)
     + (if layer h =? kLayer1 then 4 else 1)).
  unfold spec_frame_size, spec_padding. rewrite Hpad.
  change (0 =? 0) with true. cbv iota. lia.
Qed.

Lemma with_padding_ranges p h :
  0 <= p < 2 → header_ranges h → header_ranges (with_padding p h).
Proof. intros Hp []. constructor; simpl; assumption. Qed.

(** A successful call, read backwards. *)
Lemma ParseFrameHeader_success data size fs sr cl sc s rv s' :
  ParseFrameHeader data size fs sr cl sc s = Returns rv s' → 0 < rv →
  ∃ h a, ReadHeaderFields (new_reader data size) = Some h ∧
         header_ranges h ∧ accepts h = true ∧ fs = Some a ∧ rv = 4 ∧
         s' = stored h a sr cl sc s.
Proof.
  rewrite ParseFrameHeader_summary. unfold summary. intros Hret Hrv.
  destruct (size <? 4); [injection Hret as <- _; lia|].
  destruct (ReadHeaderFields _) as [h|] eqn:Hread;
    [|injection Hret as <- _; lia].
  destruct (accepts h) eqn:Hacc; [|injection Hret as <- _; lia].
  destruct fs as [a|]; [|done]. injection Hret as <- <-.
  exists h, a. split_and!; eauto using ReadHeaderFields_ranges.
Qed.

(** A failing call leaves the state as it found it. *)
Lemma ParseFrameHeader_failure data size fs sr cl sc s rv s' :
  ParseFrameHeader data size fs sr cl sc s = Returns rv s' → rv <= 0 →
  s' = s ∧ (rv = 0 ∨ rv = -1).
Proof.
  rewrite ParseFrameHeader_summary. unfold summary. intros Hret Hrv.
  destruct (size <? 4); [injection Hret as <- <-; auto|].
  destruct (ReadHeaderFields _) as [h|];
    [|injection Hret as <- <-; auto].
  destruct (accepts h); [|injection Hret as <- <-; auto].
  destruct fs; [|done]. injection Hret as <- _. lia.
Qed.

(** Past the check of lines 141-145 the tables hold no zero: the two tests
    of lines 166 and 177 never fire. *)
Lemma not_reserved_nonzero h :
  header_ranges h → reserved_fields h = false →
  spec_bitrate h ≠ 0 ∧ spec_sample_rate h ≠ 0.
Proof.
  intros Hh Hres. apply (reserved_fields_false h) in Hres
    as (_ & Hv & Hl & Hfree & Hbad & Hsr).
  unfold kVersionReserved, kLayerReserved, kBitrateFree, kBitrateBad,
    kSampleRateReserved in *.
  destruct Hh.
  destruct (kVersionLayerMap_entries (version h) (layer h))
    as (c & Hc & Hc5 & Hc4); [lia..|]. specialize (Hc4 Hv Hl).
  unfold spec_bitrate, spec_sample_rate, spec_column. rewrite Hc. simpl.
  assert (all_pairs 16 6
            (λ i j, (i =? 0) || (i =? 15) || (j =? 5) ||
                    negb (default 0 (index2 kBitrateMap i j) =? 0)) = true)
    as Hbit by (by vm_compute).
  assert (all_pairs 4 4
            (λ i v, (i =? 3) || (v =? 1) ||
                    negb (default 0 (index2 kSampleRateMap i v) =? 0)) = true)
    as Hrate by (by vm_compute).
  pose proof (all_pairs_spec _ _ _ Hbit (bitrate_index h) c) as Hb.
  pose proof (all_pairs_spec _ _ _ Hrate (sample_rate_index h) (version h))
    as Hr.
  cbv beta in Hb, Hr. lia.
Qed.

(* ===================================================================== *)
(** ** Properties of [ParseFrameHeader] *)
(* ===================================================================== *)

(** C1 (what the code does with the Layer II table): for a Layer II header
    that passes the check of lines 141-145, the call returns -1 exactly when
    the entry of [kIsAllowed] for its (bitrate index, channel mode) pair is
    [true]; pairs marked [true], the allowed ones, are the ones rejected,
    and pairs marked [false] are accepted. *)
Theorem C1_layer2_rejects_allowed_pairs data size h fs sr cl sc s :
  4 <= size →
  ReadHeaderFields (new_reader data size) = Some h →
  reserved_fields h = false →
  layer h = kLayer2 →
  ∃ entry,
    index2 kIsAllowed (bitrate_index h) (channel_mode h) = Some entry ∧
    (entry = true →
       ParseFrameHeader data size (Some fs) sr cl sc s = Returns (-1) s) ∧
    (entry = false →
       ParseFrameHeader data size (Some fs) sr cl sc s
       = Returns 4 (stored h fs sr cl sc s)).
Proof.
  intros Hsize Hread Hres Hlayer.
  apply ReadHeaderFields_ranges in Hread as Hh.
  destruct (lookups_defined h Hh) as (Ha & _).
  destruct (not_reserved_nonzero h Hh Hres) as [Hb Hr].
  exists (allowed_entry h). split; [done|].
  rewrite ParseFrameHeader_summary. unfold summary, accepts.
  rewrite Hread, Hres, Hlayer.
  replace (size <? 4) with false by lia.
  replace (spec_bitrate h =? 0) with false by lia.
  replace (spec_sample_rate h =? 0) with false by lia.
  split; intros ->; reflexivity.
Qed.

Lemma C1_layer2_rejects_allowed_pairs_witness :
  ∃ entry,
    index2 kIsAllowed 8 0 = Some entry ∧
    (entry = true →
       ParseFrameHeader layer2_128k_stereo 4 (Some 1%positive) None None None
         empty_state = Returns (-1) empty_state) ∧
    (entry = false →
       ParseFrameHeader layer2_128k_stereo 4 (Some 1%positive) None None None
         empty_state
       = Returns 4 (stored (mkHeader 0x7ff 3 2 1 8 0 0 0 0 0) 1 None None None
                      empty_state)).
Proof.
  apply (C1_layer2_rejects_allowed_pairs layer2_128k_stereo 4
           (mkHeader 0x7ff 3 2 1 8 0 0 0 0 0)).
  - lia.
  - vm_compute. reflexivity.
  - reflexivity.
  - reflexivity.
Defined.

(** The two Layer II headers, evaluated: the allowed pair (128 kbps, stereo)
    is rejected, the disallowed pair (32 kbps, joint stereo) is accepted. *)
Example layer2_allowed_pair_rejected :
  index2 kIsAllowed 8 0 = Some true ∧
  ParseFrameHeader layer2_128k_stereo 4 (Some 1%positive) None None None
    empty_state = Returns (-1) empty_state.
Proof. split; vm_compute; reflexivity. Qed.

Example layer2_disallowed_pair_accepted :
  index2 kIsAllowed 1 1 = Some false ∧
  ParseFrameHeader layer2_32k_joint 4 (Some 1%positive) None None None
    empty_state = Returns 4 (mkState {[1%positive := VInt 104]} {[1%positive]}).
Proof. split; vm_compute; reflexivity. Qed.

(** C2, as stated, fails: called without a place for the frame size on
    the acceptable header FF FB 90 00, the function stores through the null
    pointer (line 222), so not every output parameter may be omitted. *)
Lemma C2_frame_size_required :
  ParseFrameHeader mp3_128k_44100 4 None None None None empty_state
    = Undefined ∧
  ¬ (∀ data size fs sr cl sc s,
       ∃ rv s', ParseFrameHeader data size fs sr cl sc s = Returns rv s').
Proof.
  assert (ParseFrameHeader mp3_128k_44100 4 None None None None empty_state
          = Undefined) as Hundef by (vm_compute; reflexivity).
  split; [exact Hundef|].
  intros Hall.
  destruct (Hall mp3_128k_44100 4 None None None None empty_state)
    as (rv & s' & Hret).
  rewrite Hundef in Hret. discriminate Hret.
Qed.

(** C2, amended: [frame_size] has to be provided, [sample_rate],
    [channel_layout] and [sample_count] may each be null.  Then, for every
    buffer and size, the call completes; when it returns 4 the addresses
    stored to are exactly those of the provided locations, each of which
    then holds a value while every other location keeps its content; when
    it returns 0 or -1 the state is unchanged. *)
Theorem C2_optional_outputs data size (fs : positive) (sr cl sc : ptr) s :
  let provided : gset positive :=
    {[fs]} ∪ target sr ∪ target cl ∪ target sc in
  ∃ rv s',
    ParseFrameHeader data size (Some fs) sr cl sc s = Returns rv s' ∧
    (rv = 4 ∨ rv = 0 ∨ rv = -1) ∧
    (rv = 4 →
       written s' = provided ∪ written s ∧
       (∀ a, a ∈ provided → is_Some (heap s' !! a)) ∧
       (∀ a, a ∉ provided → heap s' !! a = heap s !! a)) ∧
    (rv ≠ 4 → s' = s).
Proof.
  intros provided. rewrite ParseFrameHeader_summary. unfold summary.
  destruct (size <? 4); [exists 0, s; split_and!; by auto|].
  destruct (ReadHeaderFields _) as [h|]; [|exists (-1), s; split_and!; by auto].
  destruct (accepts h); [|exists (-1), s; split_and!; by auto].
  exists 4, (stored h fs sr cl sc s). split_and!; [done | by auto | | done].
  intros _. split_and!.
  - apply stored_written.
  - intros a. apply stored_defined.
  - intros a. apply stored_elsewhere.
Qed.

Lemma C2_optional_outputs_witness :
  let provided : gset positive :=
    {[1%positive]} ∪ target None ∪ target None ∪ target (Some 4%positive) in
  ∃ rv s',
    ParseFrameHeader mp3_128k_44100 4 (Some 1%positive) None None
      (Some 4%positive) empty_state = Returns rv s' ∧
    (rv = 4 ∨ rv = 0 ∨ rv = -1) ∧
    (rv = 4 →
       written s' = provided ∪ written empty_state ∧
       (∀ a, a ∈ provided → is_Some (heap s' !! a)) ∧
       (∀ a, a ∉ provided → heap s' !! a = heap empty_state !! a)) ∧
    (rv ≠ 4 → s' = empty_state).
Proof.
  exact (C2_optional_outputs mp3_128k_44100 4 1 None None (Some 4%positive)
           empty_state).
Defined.

(** C3: with four bytes in reach, a header whose sync is not 0x7FF, whose
    version or layer is the reserved code, whose bitrate index is 0 or 0xF,
    or whose sample rate index is 3 makes the call return -1, the
    invalid-header signal, which differs from the 0 of insufficient data;
    no byte is consumed and the state is left alone. *)
Theorem C3_reserved_fields_rejected data size h fs sr cl sc s :
  4 <= size →
  ReadHeaderFields (new_reader data size) = Some h →
  sync h ≠ 0x7ff ∨ version h = 1 ∨ layer h = 0 ∨
    bitrate_index h = 0 ∨ bitrate_index h = 0xf ∨ sample_rate_index h = 3 →
  ParseFrameHeader data size fs sr cl sc s = Returns (-1) s ∧
  -1 ≠ 0 ∧ bytes_consumed (-1) = 0.
Proof.
  intros Hsize Hread Hbad. split; [|done].
  rewrite ParseFrameHeader_summary. unfold summary. rewrite Hread.
  replace (size <? 4) with false by lia.
  assert (reserved_fields h = true) as Hres.
  { unfold reserved_fields, kVersionReserved, kLayerReserved, kBitrateFree,
      kBitrateBad, kSampleRateReserved. lia. }
  unfold accepts. by rewrite Hres.
Qed.

Lemma C3_reserved_fields_rejected_witness :
  ParseFrameHeader reserved_version 4 None None None None empty_state
    = Returns (-1) empty_state ∧
  -1 ≠ 0 ∧ bytes_consumed (-1) = 0.
Proof.
  apply (C3_reserved_fields_rejected _ 4
           (mkHeader 0x7ff 1 1 1 9 0 0 0 0 0)).
  - lia.
  - vm_compute. reflexivity.
  - right. left. reflexivity.
Defined.

(** C4: on a size of 0, 1, 2 or 3 the call returns 0 (insufficient data),
    which is neither the 4 of success nor the -1 of an invalid header,
    whatever the buffer holds; no byte is consumed and nothing is stored. *)
Theorem C4_insufficient_data data size fs sr cl sc s :
  0 <= size < 4 →
  ParseFrameHeader data size fs sr cl sc s = Returns 0 s ∧
  0 ≠ 4 ∧ 0 ≠ -1 ∧ bytes_consumed 0 = 0.
Proof.
  intros Hsize. split; [|done].
  rewrite ParseFrameHeader_summary. unfold summary.
  by replace (size <? 4) with true by lia.
Qed.

Lemma C4_insufficient_data_witness :
  ParseFrameHeader [Byte.xff; Byte.xfb; Byte.x90] 3
    (Some 1%positive) None None None empty_state = Returns 0 empty_state ∧
  0 ≠ 4 ∧ 0 ≠ -1 ∧ bytes_consumed 0 = 0.
Proof. apply C4_insufficient_data. lia. Defined.

(** C5: for an accepted header the frame size stored is
    [4 * floor(12 * bitrate * 1000 / rate)] for Layer I and
    [floor((samples_per_frame / 8) * bitrate * 1000 / rate)] for Layer II
    and III, in unbounded integers, plus 4 (Layer I) or 1 (Layer II, III)
    exactly when the padding flag is set; [bitrate] and [rate] are the table
    entries the header selects.  Hence setting the padding bit of an accepted
    unpadded header yields an accepted header whose frame size is larger by
    exactly 4 (Layer I) or 1 (otherwise). *)
Theorem C5_frame_size_formula :
  (∀ data size h fs sr cl sc s s',
     ReadHeaderFields (new_reader data size) = Some h →
     ParseFrameHeader data size (Some fs) sr cl sc s = Returns 4 s' →
     cl ≠ Some fs →
     ∃ column bitrate rate,
       index2 kVersionLayerMap (version h) (layer h) = Some column ∧
       index2 kBitrateMap (bitrate_index h) column = Some bitrate ∧
       index2 kSampleRateMap (sample_rate_index h) (version h) = Some rate ∧
       heap s' !! fs =
         Some (VInt ((if layer h =? kLayer1
                      then 4 * (12 * bitrate * 1000 / rate)
                      else (spec_sample_count h / 8) * bitrate * 1000 / rate)
                     + (if has_padding h =? 0 then 0
                        else if layer h =? kLayer1 then 4 else 1))))
  ∧
  (∀ data data' size h fs sr cl sc s s',
     ReadHeaderFields (new_reader data size) = Some h →
     has_padding h = 0 →
     ReadHeaderFields (new_reader data' size) = Some (with_padding 1 h) →
     ParseFrameHeader data size (Some fs) sr cl sc s = Returns 4 s' →
     cl ≠ Some fs →
     ∃ z s'',
       heap s' !! fs = Some (VInt z) ∧
       ParseFrameHeader data' size (Some fs) sr cl sc s = Returns 4 s'' ∧
       heap s'' !! fs =
         Some (VInt (z + (if layer h =? kLayer1 then 4 else 1)))).
Proof.
  split.
  - intros data size h fs sr cl sc s s' Hread Hret Hcl.
    destruct (ParseFrameHeader_success _ _ _ _ _ _ _ _ _ Hret)
      as (h' & a & Hread' & Hh & Hacc & [= <-] & _ & ->); [lia|].
    assert (h' = h) as -> by congruence.
    destruct (lookups_defined h Hh) as (_ & Hc & Hb & Hr & _).
    exists (spec_column h), (spec_bitrate h), (spec_sample_rate h).
    split_and!; try done. by apply stored_frame_size.
  - intros data data' size h fs sr cl sc s s' Hread Hpad Hread' Hret Hcl.
    destruct (ParseFrameHeader_success _ _ _ _ _ _ _ _ _ Hret)
      as (h' & a & Hread'' & Hh & Hacc & [= <-] & _ & ->); [lia|].
    assert (h' = h) as -> by congruence.
    exists (spec_frame_size h), (stored (with_padding 1 h) fs sr cl sc s).
    split_and!.
    + by apply stored_frame_size.
    + assert (4 <= size) as Hsize.
      { rewrite ParseFrameHeader_summary in Hret. unfold summary in Hret.
        destruct (Z.ltb_spec size 4); [done | lia]. }
      rewrite ParseFrameHeader_summary. unfold summary. rewrite Hread'.
      replace (size <? 4) with false by lia.
      by rewrite accepts_with_padding, Hacc.
    + rewrite stored_frame_size by done. do 2 f_equal.
      by apply spec_frame_size_padded.
Qed.

Lemma C5_frame_size_formula_witness :
  let unpadded := mkState {[1%positive := VInt 417]} {[1%positive]} in
  (∃ column bitrate rate,
     index2 kVersionLayerMap 3 1 = Some column ∧
     index2 kBitrateMap 9 column = Some bitrate ∧
     index2 kSampleRateMap 0 3 = Some rate ∧
     heap unpadded !! 1%positive =
       Some (VInt (1152 / 8 * bitrate * 1000 / rate + 0))) ∧
  (∃ z s'',
     heap unpadded !! 1%positive = Some (VInt z) ∧
     ParseFrameHeader [Byte.xff; Byte.xfb; Byte.x92; Byte.x00] 4
       (Some 1%positive) None None None empty_state = Returns 4 s'' ∧
     heap s'' !! 1%positive = Some (VInt (z + 1))).
Proof.
  intros unpadded.
  destruct C5_frame_size_formula as [Hformula Hpadding]. split.
  - apply (Hformula mp3_128k_44100 4 (mkHeader 0x7ff 3 1 1 9 0 0 0 0 0)
             1%positive None None None empty_state unpadded).
    + vm_compute. reflexivity.
    + vm_compute. reflexivity.
    + discriminate.
  - apply (Hpadding mp3_128k_44100
             [Byte.xff; Byte.xfb; Byte.x92; Byte.x00] 4
             (mkHeader 0x7ff 3 1 1 9 0 0 0 0 0)
             1%positive None None None empty_state unpadded).
    + vm_compute. reflexivity.
    + reflexivity.
    + vm_compute. reflexivity.
    + vm_compute. reflexivity.
    + discriminate.
Defined.

(** C6: a header that encodes MPEG1 (version 3), Layer III, bitrate index 9
    (128 kbps in the MPEG1 Layer III column), sample rate index 0 (44100 Hz
    for MPEG1), padding clear and channel mode Stereo (0) is accepted: the
    call returns 4, the bytes consumed, and stores frame size 417, sample
    rate 44100, layout Stereo and sample count 1152. *)
Theorem C6_known_vector data size h (fs sr cl sc : positive) s :
  4 <= size →
  ReadHeaderFields (new_reader data size) = Some h →
  sync h = 0x7ff → version h = 3 → layer h = kLayer3 →
  bitrate_index h = 9 → sample_rate_index h = 0 →
  has_padding h = 0 → channel_mode h = 0 →
  NoDup [fs; sr; cl; sc] →
  index2 kVersionLayerMap 3 kLayer3 = Some 2 ∧
  index2 kBitrateMap 9 2 = Some 128 ∧
  index2 kSampleRateMap 0 3 = Some 44100 ∧
  ∃ s',
    ParseFrameHeader data size (Some fs) (Some sr) (Some cl) (Some sc) s
      = Returns 4 s' ∧
    bytes_consumed 4 = 4 ∧
    heap s' !! fs = Some (VInt 417) ∧
    heap s' !! sr = Some (VInt 44100) ∧
    heap s' !! cl = Some (VLayout CHANNEL_LAYOUT_STEREO) ∧
    heap s' !! sc = Some (VInt 1152).
Proof.
  intros Hsize Hread Hsync Hv Hl Hbi Hsri Hpad Hcm Hdup.
  split_and!; [done..|].
  apply NoDup_cons in Hdup as [Hfs Hdup].
  apply NoDup_cons in Hdup as [Hsr Hdup].
  apply NoDup_cons in Hdup as [Hcl _].
  exists (stored h fs (Some sr) (Some cl) (Some sc) s).
  assert (accepts h = true) as Hacc.
  { destruct h; simpl in *; subst. reflexivity. }
  assert (spec_frame_size h = 417) as Hsz.
  { destruct h; simpl in *; subst. reflexivity. }
  assert (spec_sample_rate h = 44100) as Hrate.
  { destruct h; simpl in *; subst. reflexivity. }
  assert (spec_sample_count h = 1152) as Hcount.
  { destruct h; simpl in *; subst. reflexivity. }
  assert (spec_layout h = CHANNEL_LAYOUT_STEREO) as Hlay.
  { destruct h; simpl in *; subst. reflexivity. }
  split_and!.
  - rewrite ParseFrameHeader_summary. unfold summary.
    rewrite Hread, Hacc. by replace (size <? 4) with false by lia.
  - done.
  - rewrite <- Hsz. apply stored_frame_size. set_solver.
  - rewrite <- Hrate. apply stored_sample_rate; [done | set_solver..].
  - rewrite <- Hlay. by apply stored_layout.
  - rewrite <- Hcount. apply stored_sample_count; [done | set_solver..].
Qed.

Lemma C6_known_vector_witness :
  index2 kVersionLayerMap 3 kLayer3 = Some 2 ∧
  index2 kBitrateMap 9 2 = Some 128 ∧
  index2 kSampleRateMap 0 3 = Some 44100 ∧
  ∃ s',
    ParseFrameHeader mp3_128k_44100 4 (Some 1%positive) (Some 2%positive)
      (Some 3%positive) (Some 4%positive) empty_state = Returns 4 s' ∧
    bytes_consumed 4 = 4 ∧
    heap s' !! 1%positive = Some (VInt 417) ∧
    heap s' !! 2%positive = Some (VInt 44100) ∧
    heap s' !! 3%positive = Some (VLayout CHANNEL_LAYOUT_STEREO) ∧
    heap s' !! 4%positive = Some (VInt 1152).
Proof.
  apply (C6_known_vector mp3_128k_44100 4
           (mkHeader 0x7ff 3 1 1 9 0 0 0 0 0)).
  - lia.
  - vm_compute. reflexivity.
  - reflexivity.
  - reflexivity.
  - reflexivity.
  - reflexivity.
  - reflexivity.
  - reflexivity.
  - reflexivity.
  - apply (bool_decide_unpack _). vm_compute. exact I.
Defined.

(** C7: for an accepted header the sample count stored is 384 for Layer I,
    1152 for Layer II and, for Layer III, 576 when the version is MPEG2 or
    MPEG2.5 and 1152 when it is MPEG1 (version code 3); no other case
    arises. *)
Theorem C7_sample_count data size h fs sr cl sc s s' :
  ReadHeaderFields (new_reader data size) = Some h →
  ParseFrameHeader data size fs sr cl (Some sc) s = Returns 4 s' →
  fs ≠ Some sc → cl ≠ Some sc →
  ∃ count, heap s' !! sc = Some (VInt count) ∧
    ((layer h = kLayer1 ∧ count = 384) ∨
     (layer h = kLayer2 ∧ count = 1152) ∨
     (layer h = kLayer3 ∧ (version h = kVersion2 ∨ version h = kVersion2_5)
        ∧ count = 576) ∨
     (layer h = kLayer3 ∧ version h = 3 ∧ count = 1152)).
Proof.
  intros Hread Hret Hfs Hcl.
  destruct (ParseFrameHeader_success _ _ _ _ _ _ _ _ _ Hret)
    as (h' & a & Hread' & Hh & Hacc & -> & _ & ->); [lia|].
  assert (h' = h) as -> by congruence.
  exists (spec_sample_count h). split.
  - apply stored_sample_count; congruence.
  - pose proof (accepts_layer h Hh Hacc) as Hlayer.
    apply accepts_not_reserved, (reserved_fields_false h) in Hacc
      as (_ & Hv & _).
    destruct Hh. unfold spec_sample_count.
    unfold kLayer1, kLayer2, kLayer3, kVersion2, kVersion2_5,
      kVersionReserved in *.
    destruct (Z.eqb_spec (layer h) 3); [lia|].
    destruct (Z.eqb_spec (layer h) 2); [lia|].
    destruct (Z.eqb_spec (version h) 2), (Z.eqb_spec (version h) 0);
      cbn [orb]; lia.
Qed.

Lemma C7_sample_count_witness :
  let s' := mkState {[1%positive := VInt 417; 4%positive := VInt 1152]}
              {[1%positive; 4%positive]} in
  ParseFrameHeader mp3_128k_44100 4 (Some 1%positive) None None
    (Some 4%positive) empty_state = Returns 4 s' ∧
  heap s' !! 4%positive = Some (VInt 1152).
Proof.
  intros s'.
  assert (ParseFrameHeader mp3_128k_44100 4 (Some 1%positive) None None
            (Some 4%positive) empty_state = Returns 4 s') as Hret
    by (vm_compute; reflexivity).
  split; [exact Hret|].
  destruct (C7_sample_count mp3_128k_44100 4
              (mkHeader 0x7ff 3 1 1 9 0 0 0 0 0)
              (Some 1%positive) None None 4%positive empty_state s')
    as (count & Hcount & Hcases).
  - vm_compute. reflexivity.
  - exact Hret.
  - discriminate.
  - discriminate.
  - destruct Hcases as [[Hl _] | [[Hl _] | [[_ [[Hv | Hv] _]] | (_ & _ & ->)]]];
      try discriminate.
    exact Hcount.
Defined.

(** C8: when the call succeeds and the four output locations are distinct,
    the frame size stored is at least 4, the sample rate is a nonzero entry
    of the sample rate table (hence positive), the channel layout is Mono
    exactly when the channel mode is 3 and Stereo for modes 0, 1 and 2, and
    the sample count is 384, 576 or 1152. *)
Theorem C8_derived_outputs data size (fs sr cl sc : positive) s rv s' :
  ParseFrameHeader data size (Some fs) (Some sr) (Some cl) (Some sc) s
    = Returns rv s' →
  0 < rv →
  NoDup [fs; sr; cl; sc] →
  ∃ h frame_size sample_rate layout sample_count,
    ReadHeaderFields (new_reader data size) = Some h ∧
    heap s' !! fs = Some (VInt frame_size) ∧ 4 <= frame_size ∧
    heap s' !! sr = Some (VInt sample_rate) ∧
    (∃ i j, index2 kSampleRateMap i j = Some sample_rate) ∧
    sample_rate ≠ 0 ∧ 0 < sample_rate ∧
    heap s' !! cl = Some (VLayout layout) ∧
    (channel_mode h = 3 → layout = CHANNEL_LAYOUT_MONO) ∧
    (channel_mode h = 0 ∨ channel_mode h = 1 ∨ channel_mode h = 2 →
       layout = CHANNEL_LAYOUT_STEREO) ∧
    0 <= channel_mode h <= 3 ∧
    heap s' !! sc = Some (VInt sample_count) ∧
    (sample_count = 384 ∨ sample_count = 576 ∨ sample_count = 1152).
Proof.
  intros Hret Hrv Hdup.
  destruct (ParseFrameHeader_success _ _ _ _ _ _ _ _ _ Hret Hrv)
    as (h & a & Hread & Hh & Hacc & [= <-] & _ & ->).
  apply NoDup_cons in Hdup as [Hfs Hdup].
  apply NoDup_cons in Hdup as [Hsr Hdup].
  apply NoDup_cons in Hdup as [Hcl _].
  destruct (accepts_bounds h Hh Hacc) as (Hb & Hr & Hz).
  destruct (lookups_defined h Hh) as (_ & _ & _ & Hrate & _).
  exists h, (spec_frame_size h), (spec_sample_rate h), (spec_layout h),
    (spec_sample_count h).
  pose proof (channel_mode_range h Hh) as Hmode.
  split_and!; try done; try lia.
  - apply stored_frame_size. set_solver.
  - apply stored_sample_rate; [done | set_solver..].
  - eauto.
  - by apply stored_layout.
  - unfold spec_layout. by intros ->.
  - unfold spec_layout. by intros [-> | [-> | ->]].
  - apply stored_sample_count; [done | set_solver..].
  - apply spec_sample_count_values.
Qed.

Lemma C8_derived_outputs_witness :
  ∃ h frame_size sample_rate layout sample_count,
    ReadHeaderFields (new_reader mp3_128k_44100 4) = Some h ∧
    heap (stored (mkHeader 0x7ff 3 1 1 9 0 0 0 0 0) 1 (Some 2%positive)
            (Some 3%positive) (Some 4%positive) empty_state) !! 1%positive
      = Some (VInt frame_size) ∧ 4 <= frame_size ∧
    heap (stored (mkHeader 0x7ff 3 1 1 9 0 0 0 0 0) 1 (Some 2%positive)
            (Some 3%positive) (Some 4%positive) empty_state) !! 2%positive
      = Some (VInt sample_rate) ∧
    (∃ i j, index2 kSampleRateMap i j = Some sample_rate) ∧
    sample_rate ≠ 0 ∧ 0 < sample_rate ∧
    heap (stored (mkHeader 0x7ff 3 1 1 9 0 0 0 0 0) 1 (Some 2%positive)
            (Some 3%positive) (Some 4%positive) empty_state) !! 3%positive
      = Some (VLayout layout) ∧
    (channel_mode h = 3 → layout = CHANNEL_LAYOUT_MONO) ∧
    (channel_mode h = 0 ∨ channel_mode h = 1 ∨ channel_mode h = 2 →
       layout = CHANNEL_LAYOUT_STEREO) ∧
    0 <= channel_mode h <= 3 ∧
    heap (stored (mkHeader 0x7ff 3 1 1 9 0 0 0 0 0) 1 (Some 2%positive)
            (Some 3%positive) (Some 4%positive) empty_state) !! 4%positive
      = Some (VInt sample_count) ∧
    (sample_count = 384 ∨ sample_count = 576 ∨ sample_count = 1152).
Proof.
  apply (C8_derived_outputs mp3_128k_44100 4 1 2 3 4 empty_state 4).
  - vm_compute. reflexivity.
  - lia.
  - apply (bool_decide_unpack _). vm_compute. exact I.
Defined.

(** C9: for a header that passes the check of lines 141-145, the column
    selector [kVersionLayerMap[version][layer]] exists, lies in 0..4 and so
    is never the reserved value 5. *)
Theorem C9_column_selector_not_reserved data size h :
  ReadHeaderFields (new_reader data size) = Some h →
  reserved_fields h = false →
  ∃ column, index2 kVersionLayerMap (version h) (layer h) = Some column ∧
            0 <= column <= 4 ∧ column ≠ 5.
Proof.
  intros Hread Hres. apply ReadHeaderFields_ranges in Hread as Hh.
  apply (reserved_fields_false h) in Hres as (_ & Hv & Hl & _).
  destruct Hh.
  destruct (kVersionLayerMap_entries (version h) (layer h))
    as (c & Hc & Hc5 & Hc4); [lia..|].
  exists c. specialize (Hc4 Hv Hl). split; [done | lia].
Qed.

Lemma C9_column_selector_not_reserved_witness :
  ∃ column, index2 kVersionLayerMap 3 1 = Some column ∧
            0 <= column <= 4 ∧ column ≠ 5.
Proof.
  apply (C9_column_selector_not_reserved mp3_128k_44100 4
           (mkHeader 0x7ff 3 1 1 9 0 0 0 0 0)).
  - vm_compute. reflexivity.
  - reflexivity.
Defined.

(** C10: a call that returns 0 or -1 has stored to none of the output
    locations: the state, with its set of written addresses, is the one
    the call started from.  The [default] branch of the switch, the one
    [return -1] placed after a store, is never taken: a layer that passes the
    check of lines 141-145 is Layer I, II or III. *)
Theorem C10_failure_writes_nothing data size fs sr cl sc s rv s' :
  ParseFrameHeader data size fs sr cl sc s = Returns rv s' →
  rv = 0 ∨ rv = -1 →
  (s' = s ∧ written s' = written s ∧ heap s' = heap s) ∧
  (∀ h, ReadHeaderFields (new_reader data size) = Some h →
        reserved_fields h = false →
        layer h = kLayer1 ∨ layer h = kLayer2 ∨ layer h = kLayer3).
Proof.
  intros Hret Hrv. split.
  - destruct (ParseFrameHeader_failure _ _ _ _ _ _ _ _ _ Hret) as [-> _];
      [lia | done].
  - intros h Hread Hres. apply ReadHeaderFields_ranges in Hread as [].
    apply (reserved_fields_false h) in Hres as (_ & _ & Hl & _).
    unfold kLayerReserved, kLayer1, kLayer2, kLayer3 in *. lia.
Qed.

Lemma C10_failure_writes_nothing_witness :
  let s := mkState {[2%positive := VInt 7]} ∅ in
  (s = s ∧ written s = written s ∧ heap s = heap s) ∧
  (∀ h, ReadHeaderFields (new_reader reserved_version 4) = Some h →
        reserved_fields h = false →
        layer h = kLayer1 ∨ layer h = kLayer2 ∨ layer h = kLayer3).
Proof.
  intros s.
  apply (C10_failure_writes_nothing reserved_version 4
           (Some 1%positive) (Some 2%positive) None None s (-1) s).
  - vm_compute. reflexivity.
  - right. reflexivity.
Defined.

(* ===================================================================== *)
(** ** The bit reader, algebraically *)
(* ===================================================================== *)

Section BitAlgebra.

Lemma take_bits_acc d n : ∀ p acc,
  take_bits d n p acc = acc * 2 ^ Z.of_nat n + take_bits d n p 0.
Proof.
  induction n as [|n IH]; intros p acc.
  - simpl. lia.
  - cbn [take_bits]. rewrite (IH (S p) (2 * acc + bit_at d p)).
    rewrite (IH (S p) (2 * 0 + bit_at d p)).
    rewrite Nat2Z.inj_succ, Z.pow_succ_r by lia. lia.
Qed.

(** Reading [n] bits and then [m] more is reading [n + m] bits. *)
Lemma take_bits_app d n m : ∀ p acc,
  take_bits d (n + m) p acc = take_bits d m (p + n) (take_bits d n p acc).
Proof.
  induction n as [|n IH]; intros p acc.
  - simpl. by rewrite Nat.add_0_r.
  - cbn [take_bits Nat.add]. rewrite IH. by rewrite Nat.add_succ_r.
Qed.

Lemma take_bits_split d n m p :
  take_bits d (n + m) p 0
  = take_bits d n p 0 * 2 ^ Z.of_nat m + take_bits d m (p + n) 0.
Proof. by rewrite take_bits_app, take_bits_acc. Qed.

(** The bits read depend on the buffer only at the positions read. *)
Lemma take_bits_ext d d' n : ∀ p p' acc,
  (∀ i, (i < n)%nat → bit_at d (p + i) = bit_at d' (p' + i)) →
  take_bits d n p acc = take_bits d' n p' acc.
Proof.
  induction n as [|n IH]; intros p p' acc Hbits; [done|].
  cbn [take_bits].
  pose proof (Hbits 0%nat ltac:(lia)) as H0. rewrite !Nat.add_0_r in H0.
  rewrite H0. apply IH. intros i Hi.
  specialize (Hbits (S i) ltac:(lia)). by rewrite !Nat.add_succ_r in Hbits.
Qed.

Lemma bit_at_byte d k b i :
  d !! k = Some b → (i < 8)%nat →
  bit_at d (8 * k + i) = bit_at [b] i.
Proof.
  intros Hk Hi. unfold bit_at.
  replace ((8 * k + i) / 8)%nat with k
    by (apply (Nat.div_unique _ 8 k i); lia).
  replace ((8 * k + i) mod 8)%nat with i
    by (apply (Nat.mod_unique _ 8 k i); lia).
  replace (i / 8)%nat with 0%nat by (symmetry; apply Nat.div_small; lia).
  replace (i mod 8)%nat with i by (symmetry; apply Nat.mod_small; lia).
  by rewrite Hk.
Qed.

(** Eight bits read at a byte boundary are that byte. *)
Lemma take_bits_byte d k b :
  d !! k = Some b → take_bits d 8 (8 * k) 0 = byte_val b.
Proof.
  intros Hk.
  rewrite (take_bits_ext d [b] 8 (8 * k) 0 0).
  - by destruct b.
  - intros i Hi. by apply bit_at_byte.
Qed.

(** Thirty-two bits read from the start are the big-endian word. *)
Lemma take_bits_word b0 b1 b2 b3 rest :
  take_bits (b0 :: b1 :: b2 :: b3 :: rest) 32 0 0 = header_word b0 b1 b2 b3.
Proof.
  set (d := b0 :: b1 :: b2 :: b3 :: rest).
  change 32%nat with (8 + (8 + (8 + 8)))%nat.
  rewrite !take_bits_split.
  change (take_bits d 8 0 0) with (take_bits d 8 (8 * 0) 0).
  change (0 + 8 + 8 + 8)%nat with (8 * 3)%nat.
  change (0 + 8 + 8)%nat with (8 * 2)%nat.
  change (0 + 8)%nat with (8 * 1)%nat.
  rewrite (take_bits_byte d 0 b0), (take_bits_byte d 1 b1),
    (take_bits_byte d 2 b2), (take_bits_byte d 3 b3) by done.
  unfold header_word. change (Z.of_nat 8) with 8.
  change (Z.of_nat (8 + 8)) with 16. change (Z.of_nat (8 + (8 + 8))) with 24.
  lia.
Qed.

(** The header a reader positioned at bit 0 of at least four bytes gives. *)
Lemma ReadHeaderFields_fields d :
  (4 ≤ length d)%nat →
  ReadHeaderFields (mkBitReader d 0) =
    Some (mkHeader (take_bits d 11 0 0) (take_bits d 2 11 0)
            (take_bits d 2 13 0) (take_bits d 1 15 0) (take_bits d 4 16 0)
            (take_bits d 2 20 0) (take_bits d 1 22 0) (take_bits d 1 23 0)
            (take_bits d 2 24 0) (take_bits d 6 26 0)).
Proof.
  intros Hlen. unfold ReadHeaderFields.
  repeat (rewrite ReadBits_Some by (simpl; lia); simpl).
  reflexivity.
Qed.

End BitAlgebra.

Section HeaderLayout.

Lemma take_prefix4 (b0 b1 b2 b3 : Byte.byte) rest size :
  4 <= size →
  ∃ rest', take (Z.to_nat size) (b0 :: b1 :: b2 :: b3 :: rest)
           = b0 :: b1 :: b2 :: b3 :: rest'.
Proof.
  intros Hsize.
  assert (∃ k, Z.to_nat size = S (S (S (S k)))) as [k ->]
    by (exists (Z.to_nat size - 4)%nat; lia).
  simpl. eauto.
Qed.

(** The ten fields, laid side by side, are the 32 bits read. *)
Lemma take_bits_fields d :
  take_bits d 32 0 0 =
    take_bits d 11 0 0 * 2 ^ 21 + take_bits d 2 11 0 * 2 ^ 19
    + take_bits d 2 13 0 * 2 ^ 17 + take_bits d 1 15 0 * 2 ^ 16
    + take_bits d 4 16 0 * 2 ^ 12 + take_bits d 2 20 0 * 2 ^ 10
    + take_bits d 1 22 0 * 2 ^ 9 + take_bits d 1 23 0 * 2 ^ 8
    + take_bits d 2 24 0 * 2 ^ 6 + take_bits d 6 26 0.
Proof.
  change 32%nat
    with (11 + (2 + (2 + (1 + (4 + (2 + (1 + (1 + (2 + 6)))))))))%nat.
  rewrite !take_bits_split.
  change (Z.of_nat (2 + (2 + (1 + (4 + (2 + (1 + (1 + (2 + 6)))))))))
    with 21.
  change (Z.of_nat (2 + (1 + (4 + (2 + (1 + (1 + (2 + 6)))))))) with 19.
  change (Z.of_nat (1 + (4 + (2 + (1 + (1 + (2 + 6))))))) with 17.
  change (Z.of_nat (4 + (2 + (1 + (1 + (2 + 6)))))) with 16.
  change (Z.of_nat (2 + (1 + (1 + (2 + 6))))) with 12.
  change (Z.of_nat (1 + (1 + (2 + 6)))) with 10.
  change (Z.of_nat (1 + (2 + 6))) with 9.
  change (Z.of_nat (2 + 6)) with 8.
  change (Z.of_nat 6) with 6.
  change (0 + 11)%nat with 11%nat. change (11 + 2)%nat with 13%nat.
  change (13 + 2)%nat with 15%nat. change (15 + 1)%nat with 16%nat.
  change (16 + 4)%nat with 20%nat. change (20 + 2)%nat with 22%nat.
  change (22 + 1)%nat with 23%nat. change (23 + 1)%nat with 24%nat.
  change (24 + 2)%nat with 26%nat.
  lia.
Qed.

(** Each field is its slice of the big-endian word of the four bytes. *)
Lemma ReadHeaderFields_word b0 b1 b2 b3 rest size :
  4 <= size →
  let w := header_word b0 b1 b2 b3 in
  ReadHeaderFields (new_reader (b0 :: b1 :: b2 :: b3 :: rest) size) =
    Some (mkHeader (w / 2 ^ 21) ((w / 2 ^ 19) mod 4) ((w / 2 ^ 17) mod 4)
            ((w / 2 ^ 16) mod 2) ((w / 2 ^ 12) mod 16) ((w / 2 ^ 10) mod 4)
            ((w / 2 ^ 9) mod 2) ((w / 2 ^ 8) mod 2) ((w / 2 ^ 6) mod 4)
            (w mod 64)).
Proof.
  intros Hsize w. unfold new_reader.
  destruct (take_prefix4 b0 b1 b2 b3 rest size Hsize) as [rest' ->].
  set (d := b0 :: b1 :: b2 :: b3 :: rest').
  rewrite ReadHeaderFields_fields by (simpl; lia).
  assert (w = take_bits d 32 0 0) as Hw
    by (symmetry; apply take_bits_word).
  rewrite take_bits_fields in Hw.
  pose proof (take_bits_bounds d 11 0 0). pose proof (take_bits_bounds d 2 11 0).
  pose proof (take_bits_bounds d 2 13 0). pose proof (take_bits_bounds d 1 15 0).
  pose proof (take_bits_bounds d 4 16 0). pose proof (take_bits_bounds d 2 20 0).
  pose proof (take_bits_bounds d 1 22 0). pose proof (take_bits_bounds d 1 23 0).
  pose proof (take_bits_bounds d 2 24 0). pose proof (take_bits_bounds d 6 26 0).
  change (2 ^ Z.of_nat 11) with 2048 in *. change (2 ^ Z.of_nat 2) with 4 in *.
  change (2 ^ Z.of_nat 1) with 2 in *. change (2 ^ Z.of_nat 4) with 16 in *.
  change (2 ^ Z.of_nat 6) with 64 in *.
  change (2 ^ 21) with 2097152 in *. change (2 ^ 19) with 524288 in *.
  change (2 ^ 17) with 131072 in *. change (2 ^ 16) with 65536 in *.
  change (2 ^ 12) with 4096 in *. change (2 ^ 10) with 1024 in *.
  change (2 ^ 9) with 512 in *. change (2 ^ 8) with 256 in *.
  change (2 ^ 6) with 64 in *.
  generalize dependent w. intros w Hw. clearbody d.
  do 2 f_equal; f_equal; Z.div_mod_to_equations; lia.
Qed.

End HeaderLayout.

(* ===================================================================== *)
(** ** Helper facts for the further properties *)
(* ===================================================================== *)

Section MoreFacts.

Lemma byte_val_range b : 0 <= byte_val b < 256.
Proof. unfold byte_val. pose proof (Byte.to_N_bounded b). lia. Qed.

Lemma header_word_range b0 b1 b2 b3 : 0 <= header_word b0 b1 b2 b3 < 2 ^ 32.
Proof.
  unfold header_word.
  pose proof (byte_val_range b0). pose proof (byte_val_range b1).
  pose proof (byte_val_range b2). pose proof (byte_val_range b3).
  change (2 ^ 24) with 16777216. change (2 ^ 16) with 65536.
  change (2 ^ 8) with 256. change (2 ^ 32) with 4294967296. lia.
Qed.

(** Masking with the start code keeps the top eleven bits of a word. *)
Lemma land_start_code w :
  0 <= w < 2 ^ 32 →
  Z.land w kMP3StartCodeMask = w / 2 ^ 21 * 2 ^ 21.
Proof.
  intros Hw.
  assert (Z.land w kMP3StartCodeMask
          = Z.shiftl (Z.land (Z.shiftr w 21) (Z.ones 11)) 21) as ->.
  { change kMP3StartCodeMask with (Z.shiftl (Z.ones 11) 21).
    apply Z.bits_inj'. intros n Hn.
    rewrite Z.land_spec, !Z.shiftl_spec, Z.land_spec by lia.
    destruct (Z.lt_ge_cases n 21).
    - rewrite (Z.testbit_neg_r (Z.ones 11)) by lia.
      by rewrite !andb_false_r.
    - rewrite Z.shiftr_spec by lia. do 2 f_equal. lia. }
  rewrite Z.land_ones, Z.shiftr_div_pow2, Z.shiftl_mul_pow2 by lia.
  rewrite Z.mod_small; [done|].
  split; [apply Z.div_pos; lia|].
  apply Z.div_lt_upper_bound; [lia|].
  change (2 ^ 21 * 2 ^ 11) with (2 ^ 32). lia.
Qed.

Lemma all_frame_headers_spec P :
  all_frame_headers P = true →
  ∀ v l bi sri p cm,
    0 <= v < 4 → 0 <= l < 4 → 0 <= bi < 16 → 0 <= sri < 4 →
    0 <= p < 2 → 0 <= cm < 4 →
    P (frame_header v l bi sri p cm) = true.
Proof.
  unfold all_frame_headers. intros Hall v l bi sri p cm Hv Hl Hbi Hsri Hp Hcm.
  rewrite forallb_forall in Hall.
  specialize (Hall v (elem_of_below 4 _ Hv)).
  rewrite forallb_forall in Hall.
  specialize (Hall l (elem_of_below 4 _ Hl)).
  rewrite forallb_forall in Hall.
  specialize (Hall bi (elem_of_below 16 _ Hbi)).
  rewrite forallb_forall in Hall.
  specialize (Hall sri (elem_of_below 4 _ Hsri)).
  rewrite forallb_forall in Hall.
  specialize (Hall p (elem_of_below 2 _ Hp)).
  rewrite forallb_forall in Hall.
  exact (Hall cm (elem_of_below 4 _ Hcm)).
Qed.

(** The verdict and the outputs look at seven fields only. *)
Lemma same_decoded_fields_outputs h h' :
  same_decoded_fields h h' →
  accepts h = accepts h' ∧ spec_frame_size h = spec_frame_size h' ∧
  spec_sample_rate h = spec_sample_rate h' ∧
  spec_sample_count h = spec_sample_count h' ∧
  spec_layout h = spec_layout h'.
Proof.
  destruct h, h'. unfold same_decoded_fields. cbn [sync version layer
    bitrate_index sample_rate_index has_padding channel_mode].
  intros (-> & -> & -> & -> & -> & -> & ->). done.
Qed.

Lemma same_decoded_fields_frame_header h :
  sync h = 0x7ff →
  same_decoded_fields h
    (frame_header (version h) (layer h) (bitrate_index h)
       (sample_rate_index h) (has_padding h) (channel_mode h)).
Proof. intros Hs. unfold same_decoded_fields, frame_header. by rewrite Hs. Qed.

Lemma same_decoded_fields_stored h h' fs sr cl sc s :
  same_decoded_fields h h' →
  stored h fs sr cl sc s = stored h' fs sr cl sc s.
Proof.
  intros Hsame.
  destruct (same_decoded_fields_outputs h h' Hsame)
    as (_ & Hz & Hr & Hc & Hl).
  unfold stored. by rewrite Hz, Hr, Hc, Hl.
Qed.

(** What passes every test, in terms of the fields and the table entry. *)
Lemma accepts_true_iff h :
  header_ranges h →
  accepts h = true ↔
    reserved_fields h = false ∧
    ¬ (layer h = kLayer2 ∧
       index2 kIsAllowed (bitrate_index h) (channel_mode h) = Some true).
Proof.
  intros Hh. destruct (lookups_defined h Hh) as (Ha & _).
  rewrite Ha. unfold accepts. split.
  - intros Hacc.
    destruct (reserved_fields h); [done|]. split; [done|].
    intros [Hl [= Hentry]]. rewrite Hl, Hentry in Hacc. done.
  - intros [Hres Hcomb].
    destruct (not_reserved_nonzero h Hh Hres) as [Hb Hr].
    rewrite Hres.
    replace (spec_bitrate h =? 0) with false by lia.
    replace (spec_sample_rate h =? 0) with false by lia.
    destruct (Z.eqb_spec (layer h) kLayer2) as [Hl|]; [|done].
    destruct (allowed_entry h); [|done].
    exfalso. by apply Hcomb.
Qed.

(** Away from the frame size location, the padding bit leaves no trace. *)
Lemma stored_with_padding_elsewhere p h fs sr cl sc s a :
  a ≠ fs →
  heap (stored (with_padding p h) fs sr cl sc s) !! a
  = heap (stored h fs sr cl sc s) !! a.
Proof.
  intros Hne. unfold stored, put; cbn [heap].
  destruct cl as [c|].
  - destruct (decide (c = a)) as [->|Hc].
    + by rewrite !lookup_insert_eq.
    + rewrite !(lookup_insert_ne _ c a) by done.
      by rewrite !(lookup_insert_ne _ fs a) by done.
  - by rewrite !(lookup_insert_ne _ fs a) by done.
Qed.

End MoreFacts.

(* ===================================================================== *)
(** ** Further properties of the decoder *)
(* ===================================================================== *)

(** X1: the ten fields read by lines 120-129 are the bit slices of the
    big-endian word [w] of the first four bytes: sync is bits 31..21,
    version 20..19, layer 18..17, protection 16, bitrate index 15..12,
    sample rate index 11..10, padding 9, private 8, channel mode 7..6 and
    the other flags 5..0. *)
Theorem X1_header_field_layout b0 b1 b2 b3 rest size :
  4 <= size →
  let w := header_word b0 b1 b2 b3 in
  ReadHeaderFields (new_reader (b0 :: b1 :: b2 :: b3 :: rest) size) =
    Some (mkHeader (w / 2 ^ 21) ((w / 2 ^ 19) mod 4) ((w / 2 ^ 17) mod 4)
            ((w / 2 ^ 16) mod 2) ((w / 2 ^ 12) mod 16) ((w / 2 ^ 10) mod 4)
            ((w / 2 ^ 9) mod 2) ((w / 2 ^ 8) mod 2) ((w / 2 ^ 6) mod 4)
            (w mod 64)).
Proof. apply ReadHeaderFields_word. Qed.

Lemma X1_header_field_layout_witness :
  ReadHeaderFields (new_reader mp3_128k_44100 4)
  = Some (mkHeader 0x7ff 3 1 1 9 0 0 0 0 0).
Proof.
  exact (X1_header_field_layout Byte.xff Byte.xfb Byte.x90 Byte.x00 [] 4
           ltac:(lia)).
Defined.

(** X2: with at least four bytes announced, a call looks at the first four
    bytes only: what follows them in the buffer, and how much larger than 4
    the size is, changes neither the return value nor the stores. *)
Theorem X2_only_first_four_bytes b0 b1 b2 b3 rest size fs sr cl sc s :
  4 <= size →
  ParseFrameHeader (b0 :: b1 :: b2 :: b3 :: rest) size fs sr cl sc s
  = ParseFrameHeader [b0; b1; b2; b3] 4 fs sr cl sc s.
Proof.
  intros Hsize. rewrite !ParseFrameHeader_summary. unfold summary.
  rewrite (ReadHeaderFields_word b0 b1 b2 b3 rest size Hsize).
  rewrite (ReadHeaderFields_word b0 b1 b2 b3 [] 4) by lia.
  by replace (size <? 4) with false by lia.
Qed.

Lemma X2_only_first_four_bytes_witness :
  ParseFrameHeader
    [Byte.xff; Byte.xfb; Byte.x90; Byte.x00; Byte.x12; Byte.x34] 6
    (Some 1%positive) None None None empty_state
  = ParseFrameHeader mp3_128k_44100 4 (Some 1%positive) None None None
      empty_state.
Proof. apply X2_only_first_four_bytes. lia. Defined.

(** X3: the word of the first four bytes has every bit of
    [kMP3StartCodeMask] set exactly when the sync field the decoder reads is
    0x7ff; hence every header the decoder accepts matches the start code
    mask. *)
Theorem X3_start_code_mask_is_sync b0 b1 b2 b3 rest size h :
  4 <= size →
  ReadHeaderFields (new_reader (b0 :: b1 :: b2 :: b3 :: rest) size) = Some h →
  let w := header_word b0 b1 b2 b3 in
  (Z.land w kMP3StartCodeMask = kMP3StartCodeMask ↔ sync h = 0x7ff) ∧
  (∀ fs sr cl sc s s',
     ParseFrameHeader (b0 :: b1 :: b2 :: b3 :: rest) size fs sr cl sc s
       = Returns 4 s' →
     Z.land w kMP3StartCodeMask = kMP3StartCodeMask).
Proof.
  intros Hsize Hread w.
  assert (Z.land w kMP3StartCodeMask = kMP3StartCodeMask ↔ sync h = 0x7ff)
    as Hiff.
  { rewrite (ReadHeaderFields_word b0 b1 b2 b3 rest size Hsize) in Hread.
    injection Hread as <-. cbn [sync]. fold w.
    rewrite land_start_code by apply header_word_range.
    unfold kMP3StartCodeMask. change (2 ^ 21) with 2097152. lia. }
  split; [exact Hiff|].
  intros fs sr cl sc s s' Hret. apply Hiff.
  destruct (ParseFrameHeader_success _ _ _ _ _ _ _ _ _ Hret)
    as (h' & a & Hread' & Hh & Hacc & _); [lia|].
  assert (h' = h) as -> by congruence.
  apply accepts_not_reserved in Hacc.
  by apply (reserved_fields_false h) in Hacc as (Hsync & _).
Qed.

Lemma X3_start_code_mask_is_sync_witness :
  let w := header_word Byte.xff Byte.xfb Byte.x90 Byte.x00 in
  (Z.land w kMP3StartCodeMask = kMP3StartCodeMask ↔ (0x7ff : Z) = 0x7ff) ∧
  (∀ fs sr cl sc s s',
     ParseFrameHeader mp3_128k_44100 4 fs sr cl sc s = Returns 4 s' →
     Z.land w kMP3StartCodeMask = kMP3StartCodeMask).
Proof.
  apply (X3_start_code_mask_is_sync Byte.xff Byte.xfb Byte.x90 Byte.x00 [] 4
           (mkHeader 0x7ff 3 1 1 9 0 0 0 0 0)).
  - lia.
  - vm_compute. reflexivity.
Defined.

(** X4: with four bytes in reach and a place for the frame size, the call
    returns 4 exactly when the sync is 0x7ff, version, layer, bitrate index
    and sample rate index avoid their reserved codes, and the header is not
    a Layer II header whose [kIsAllowed] entry is [true]; on every other
    header it returns -1 and leaves the state alone. *)
Theorem X4_acceptance_criterion data size h fs sr cl sc s :
  4 <= size →
  ReadHeaderFields (new_reader data size) = Some h →
  let passes :=
    sync h = 0x7ff ∧ version h ≠ kVersionReserved ∧
    layer h ≠ kLayerReserved ∧
    bitrate_index h ≠ kBitrateFree ∧ bitrate_index h ≠ kBitrateBad ∧
    sample_rate_index h ≠ kSampleRateReserved ∧
    ¬ (layer h = kLayer2 ∧
       index2 kIsAllowed (bitrate_index h) (channel_mode h) = Some true) in
  (passes →
     ParseFrameHeader data size (Some fs) sr cl sc s
     = Returns 4 (stored h fs sr cl sc s)) ∧
  (¬ passes →
     ParseFrameHeader data size (Some fs) sr cl sc s = Returns (-1) s).
Proof.
  intros Hsize Hread passes.
  apply ReadHeaderFields_ranges in Hread as Hh.
  rewrite ParseFrameHeader_summary. unfold summary. rewrite Hread.
  replace (size <? 4) with false by lia.
  pose proof (accepts_true_iff h Hh) as Hacc.
  pose proof (reserved_fields_false h) as Hres.
  assert (accepts h = true ↔ passes) as Hiff
    by (unfold passes; tauto).
  split.
  - intros Hp. apply Hiff in Hp. by rewrite Hp.
  - intros Hp. destruct (accepts h); [|done]. exfalso. tauto.
Qed.

Lemma X4_acceptance_criterion_witness :
  ParseFrameHeader mp3_128k_44100 4 (Some 1%positive) None None None
    empty_state
  = Returns 4 (mkState {[1%positive := VInt 417]} {[1%positive]}).
Proof.
  apply (X4_acceptance_criterion mp3_128k_44100 4
           (mkHeader 0x7ff 3 1 1 9 0 0 0 0 0) 1 None None None empty_state).
  - lia.
  - vm_compute. reflexivity.
  - vm_compute. split_and!; try discriminate; try reflexivity.
    intros [Hl _]. discriminate Hl.
Defined.

(** X5: past the check of lines 141-145 the bitrate read at line 164 and
    the sample rate read at line 176 are never 0: the two rejections of
    lines 166-172 and 177-182 cannot happen. *)
Theorem X5_zero_tests_never_fire data size h :
  ReadHeaderFields (new_reader data size) = Some h →
  reserved_fields h = false →
  ∃ column bitrate rate,
    index2 kVersionLayerMap (version h) (layer h) = Some column ∧
    index2 kBitrateMap (bitrate_index h) column = Some bitrate ∧
    index2 kSampleRateMap (sample_rate_index h) (version h) = Some rate ∧
    bitrate ≠ 0 ∧ rate ≠ 0.
Proof.
  intros Hread Hres. apply ReadHeaderFields_ranges in Hread as Hh.
  destruct (lookups_defined h Hh) as (_ & Hc & Hb & Hr & _).
  destruct (not_reserved_nonzero h Hh Hres) as [Hb0 Hr0].
  exists (spec_column h), (spec_bitrate h), (spec_sample_rate h). done.
Qed.

Lemma X5_zero_tests_never_fire_witness :
  ∃ column bitrate rate,
    index2 kVersionLayerMap 3 2 = Some column ∧
    index2 kBitrateMap 8 column = Some bitrate ∧
    index2 kSampleRateMap 0 3 = Some rate ∧
    bitrate ≠ 0 ∧ rate ≠ 0.
Proof.
  apply (X5_zero_tests_never_fire layer2_128k_stereo 4
           (mkHeader 0x7ff 3 2 1 8 0 0 0 0 0)).
  - vm_compute. reflexivity.
  - reflexivity.
Defined.

(** X6: on an accepted header no [int] expression of lines 220-227
    overflows and line 220/223 never divides by 0: with the bitrate and the
    rate the header selects, every product, quotient and sum formed on the
    way to the frame size lies in the range of a 32-bit [int]. *)
Theorem X6_no_int_overflow data size h fs sr cl sc s s' :
  ReadHeaderFields (new_reader data size) = Some h →
  ParseFrameHeader data size fs sr cl sc s = Returns 4 s' →
  ∃ column bitrate rate,
    index2 kVersionLayerMap (version h) (layer h) = Some column ∧
    index2 kBitrateMap (bitrate_index h) column = Some bitrate ∧
    index2 kSampleRateMap (sample_rate_index h) (version h) = Some rate ∧
    rate ≠ 0 ∧
    Int32.in_range (12 * bitrate) ∧
    Int32.in_range (12 * bitrate * 1000) ∧
    Int32.in_range (Z.quot (12 * bitrate * 1000) rate) ∧
    Int32.in_range (4 * Z.quot (12 * bitrate * 1000) rate) ∧
    Int32.in_range (Z.quot (spec_sample_count h) 8) ∧
    Int32.in_range (Z.quot (spec_sample_count h) 8 * bitrate) ∧
    Int32.in_range (Z.quot (spec_sample_count h) 8 * bitrate * 1000) ∧
    Int32.in_range
      (Z.quot (Z.quot (spec_sample_count h) 8 * bitrate * 1000) rate) ∧
    Int32.in_range (spec_frame_size h).
Proof.
  intros Hread Hret.
  destruct (ParseFrameHeader_success _ _ _ _ _ _ _ _ _ Hret)
    as (h' & a & Hread' & Hh & Hacc & _); [lia|].
  assert (h' = h) as -> by congruence.
  destruct (lookups_defined h Hh) as (_ & Hc & Hb & Hr & _).
  destruct (accepts_bounds h Hh Hacc) as (Hb' & Hr' & Hz).
  exists (spec_column h), (spec_bitrate h), (spec_sample_rate h).
  pose proof (layer1_size_exact _ _ Hb' Hr') as [_ B1].
  pose proof (layer23_size_exact _ _ Hb' Hr' _ (spec_sample_count_values h))
    as [_ B2].
  assert (48 <= spec_sample_count h / 8 <= 144) as Hs.
  { destruct (spec_sample_count_values h) as [-> | [-> | ->]];
      by vm_compute. }
  assert (0 <= spec_sample_count h) as Hcount
    by (destruct (spec_sample_count_values h) as [-> | [-> | ->]]; lia).
  assert (spec_frame_size h <= 8068) as Hmax.
  { unfold spec_frame_size, spec_padding.
    destruct (layer h =? kLayer1), (has_padding h =? 0); lia. }
  rewrite !Z.quot_div_nonneg by nia.
  unfold Int32.in_range, Int32.min_int, Int32.max_int.
  change (2 ^ 31) with 2147483648.
  split_and!; try done; try lia; try nia.
Qed.

Lemma X6_no_int_overflow_witness :
  ∃ column bitrate rate,
    index2 kVersionLayerMap 3 1 = Some column ∧
    index2 kBitrateMap 9 column = Some bitrate ∧
    index2 kSampleRateMap 0 3 = Some rate ∧
    rate ≠ 0 ∧
    Int32.in_range (12 * bitrate) ∧
    Int32.in_range (12 * bitrate * 1000) ∧
    Int32.in_range (Z.quot (12 * bitrate * 1000) rate) ∧
    Int32.in_range (4 * Z.quot (12 * bitrate * 1000) rate) ∧
    Int32.in_range (Z.quot 1152 8) ∧
    Int32.in_range (Z.quot 1152 8 * bitrate) ∧
    Int32.in_range (Z.quot 1152 8 * bitrate * 1000) ∧
    Int32.in_range (Z.quot (Z.quot 1152 8 * bitrate * 1000) rate) ∧
    Int32.in_range 417.
Proof.
  apply (X6_no_int_overflow mp3_128k_44100 4
           (mkHeader 0x7ff 3 1 1 9 0 0 0 0 0)
           (Some 1%positive) None None None empty_state
           (mkState {[1%positive := VInt 417]} {[1%positive]})).
  - vm_compute. reflexivity.
  - vm_compute. reflexivity.
Defined.

(** Every accepted header has a frame size between 24 and 2881. *)
Lemma accepts_frame_size_bounds h :
  header_ranges h → accepts h = true → 24 <= spec_frame_size h <= 2881.
Proof.
  intros Hh Hacc.
  assert (all_frame_headers
            (λ h, negb (accepts h) ||
                  ((24 <=? spec_frame_size h) && (spec_frame_size h <=? 2881)))
          = true) as Hall by (by vm_compute).
  pose proof (accepts_not_reserved h Hacc) as Hres.
  apply (reserved_fields_false h) in Hres as (Hsync & _).
  destruct (same_decoded_fields_outputs _ _
              (same_decoded_fields_frame_header h Hsync))
    as (Ha & Hz & _).
  destruct Hh.
  pose proof (all_frame_headers_spec _ Hall (version h) (layer h)
                (bitrate_index h) (sample_rate_index h) (has_padding h)
                (channel_mode h)) as Hh.
  cbv beta in Hh. rewrite <- Ha, <- Hz, Hacc in Hh. lia.
Qed.

(** X7: the frame size stored by a successful call lies between 24 and
    2881 bytes, and both bounds are reached: 24 by MPEG2 Layer III at 8 kbps
    and 24000 Hz (FF F3 14 00), 2881 by MPEG2.5 Layer II at 160 kbps and
    8000 Hz with padding (FF E5 EA 00). *)
Theorem X7_frame_size_bounds :
  (∀ data size fs sr cl sc s s',
     ParseFrameHeader data size (Some fs) sr cl sc s = Returns 4 s' →
     cl ≠ Some fs →
     ∃ z, heap s' !! fs = Some (VInt z) ∧ 24 <= z <= 2881) ∧
  ParseFrameHeader [Byte.xff; Byte.xf3; Byte.x14; Byte.x00] 4
    (Some 1%positive) None None None empty_state
    = Returns 4 (mkState {[1%positive := VInt 24]} {[1%positive]}) ∧
  ParseFrameHeader [Byte.xff; Byte.xe5; Byte.xea; Byte.x00] 4
    (Some 1%positive) None None None empty_state
    = Returns 4 (mkState {[1%positive := VInt 2881]} {[1%positive]}).
Proof.
  split_and!; [|by vm_compute..].
  intros data size fs sr cl sc s s' Hret Hcl.
  destruct (ParseFrameHeader_success _ _ _ _ _ _ _ _ _ Hret)
    as (h & a & Hread & Hh & Hacc & [= <-] & _ & ->); [lia|].
  exists (spec_frame_size h). split.
  - by apply stored_frame_size.
  - by apply accepts_frame_size_bounds.
Qed.

Lemma X7_frame_size_bounds_witness :
  ∃ z, heap (mkState {[1%positive := VInt 417]} {[1%positive]}) !! 1%positive
       = Some (VInt z) ∧ 24 <= z <= 2881.
Proof.
  apply (proj1 X7_frame_size_bounds mp3_128k_44100 4 1%positive None None None
           empty_state).
  - vm_compute. reflexivity.
  - discriminate.
Defined.

(** X8: the protection bit, the private bit and the six trailing flag bits
    are not looked at: two buffers whose headers agree on sync, version,
    layer, bitrate index, sample rate index, padding and channel mode give
    the same return value and the same stores. *)
Theorem X8_informational_bits_ignored
    data data' size h h' fs sr cl sc s :
  ReadHeaderFields (new_reader data size) = Some h →
  ReadHeaderFields (new_reader data' size) = Some h' →
  same_decoded_fields h h' →
  ParseFrameHeader data size fs sr cl sc s
  = ParseFrameHeader data' size fs sr cl sc s.
Proof.
  intros Hread Hread' Hsame.
  rewrite !ParseFrameHeader_summary. unfold summary. rewrite Hread, Hread'.
  destruct (same_decoded_fields_outputs h h' Hsame) as (<- & _).
  destruct fs as [fs|]; [|done].
  by rewrite (same_decoded_fields_stored h h' fs sr cl sc s Hsame).
Qed.

Lemma X8_informational_bits_ignored_witness :
  ParseFrameHeader mp3_128k_44100 4 (Some 1%positive) None None None
    empty_state
  = ParseFrameHeader [Byte.xff; Byte.xfa; Byte.x91; Byte.x3f] 4
      (Some 1%positive) None None None empty_state.
Proof.
  apply (X8_informational_bits_ignored mp3_128k_44100
           [Byte.xff; Byte.xfa; Byte.x91; Byte.x3f] 4
           (mkHeader 0x7ff 3 1 1 9 0 0 0 0 0)
           (mkHeader 0x7ff 3 1 0 9 0 0 1 0 63)).
  - vm_compute. reflexivity.
  - vm_compute. reflexivity.
  - vm_compute. split_and!; reflexivity.
Defined.

(** The floor of lines 220-223, as two inequalities. *)
Lemma accepts_floor h :
  header_ranges h → accepts h = true →
  let unpadded := spec_frame_size h - spec_padding h in
  unpadded mod slot_size h = 0 ∧
  unpadded * spec_sample_rate h <= frame_numerator h
    < (unpadded + slot_size h) * spec_sample_rate h.
Proof.
  intros Hh Hacc unpadded.
  destruct (accepts_bounds h Hh Hacc) as (Hb & Hr & _).
  pose proof (accepts_layer h Hh Hacc) as Hlayer.
  unfold unpadded, spec_frame_size, frame_numerator, slot_size.
  destruct (Z.eqb_spec (layer h) kLayer1) as [Hl|Hl].
  - assert (spec_sample_count h / 8 = 48) as ->.
    { unfold spec_sample_count. rewrite Hl. reflexivity. }
    set (q := 12 * spec_bitrate h * 1000 / spec_sample_rate h).
    assert (spec_sample_rate h * q <= 12 * spec_bitrate h * 1000
            < spec_sample_rate h * (q + 1)) as Hq.
    { split; [apply Z.mul_div_le; lia|].
      rewrite Z.mul_add_distr_l, Z.mul_1_r.
      pose proof (Z.mod_pos_bound (12 * spec_bitrate h * 1000)
                    (spec_sample_rate h)).
      pose proof (Z.div_mod (12 * spec_bitrate h * 1000)
                    (spec_sample_rate h)).
      fold q in H0. lia. }
    split.
    + replace (4 * q + spec_padding h - spec_padding h) with (q * 4) by lia.
      apply Z.mod_mul. lia.
    + nia.
  - set (n := spec_sample_count h / 8 * spec_bitrate h * 1000).
    set (q := n / spec_sample_rate h).
    assert (spec_sample_rate h * q <= n < spec_sample_rate h * (q + 1)) as Hq.
    { split; [apply Z.mul_div_le; lia|].
      pose proof (Z.mod_pos_bound n (spec_sample_rate h)).
      pose proof (Z.div_mod n (spec_sample_rate h)).
      fold q in H0. lia. }
    split; [apply Z.mod_1_r | lia].
Qed.

(** X9: the frame size stored, less its padding, is a whole number of
    slots (4 bytes for Layer I, 1 byte otherwise) and the largest one whose
    bytes, times the sample rate, do not exceed
    [(samples_per_frame / 8) * bitrate * 1000]; for Layer I the frame size
    is a multiple of 4, padded or not. *)
Theorem X9_frame_size_slot_floor data size h fs sr cl sc s s' :
  ReadHeaderFields (new_reader data size) = Some h →
  ParseFrameHeader data size (Some fs) sr cl sc s = Returns 4 s' →
  cl ≠ Some fs →
  ∃ z, heap s' !! fs = Some (VInt z) ∧
    let unpadded := z - spec_padding h in
    unpadded mod slot_size h = 0 ∧
    unpadded * spec_sample_rate h <= frame_numerator h
      < (unpadded + slot_size h) * spec_sample_rate h ∧
    (layer h = kLayer1 → z mod 4 = 0).
Proof.
  intros Hread Hret Hcl.
  destruct (ParseFrameHeader_success _ _ _ _ _ _ _ _ _ Hret)
    as (h' & a & Hread' & Hh & Hacc & [= <-] & _ & ->); [lia|].
  assert (h' = h) as -> by congruence.
  exists (spec_frame_size h). split; [by apply stored_frame_size|].
  destruct (accepts_floor h Hh Hacc) as (Hmod & Hfloor).
  split_and!; [done | lia | lia |].
  intros Hl. unfold slot_size, spec_padding in *.
  rewrite Hl in *. change (kLayer1 =? kLayer1) with true in *.
  cbv iota in *.
  destruct (has_padding h =? 0).
  - by rewrite Z.sub_0_r in Hmod.
  - replace (spec_frame_size h) with (spec_frame_size h - 4 + 1 * 4) by lia.
    by rewrite Z.mod_add by lia.
Qed.

Lemma X9_frame_size_slot_floor_witness :
  ∃ z, heap (mkState {[1%positive := VInt 48]} {[1%positive]}) !! 1%positive
       = Some (VInt z) ∧
    let h := mkHeader 0x7ff 3 3 1 1 2 0 0 0 0 in
    let unpadded := z - spec_padding h in
    unpadded mod slot_size h = 0 ∧
    unpadded * spec_sample_rate h <= frame_numerator h
      < (unpadded + slot_size h) * spec_sample_rate h ∧
    (layer h = kLayer1 → z mod 4 = 0).
Proof.
  apply (X9_frame_size_slot_floor [Byte.xff; Byte.xff; Byte.x18; Byte.x00] 4
           (mkHeader 0x7ff 3 3 1 1 2 0 0 0 0) 1%positive None None None
           empty_state).
  - vm_compute. reflexivity.
  - vm_compute. reflexivity.
  - discriminate.
Defined.

(** X10: the padding bit changes the frame size and nothing else: two
    buffers whose headers differ in the padding field only give the same
    return value, store to the same addresses, and leave equal contents at
    every address other than the frame size location. *)
Theorem X10_padding_changes_frame_size_only
    data data' size h p (fs : positive) sr cl sc s :
  ReadHeaderFields (new_reader data size) = Some h →
  ReadHeaderFields (new_reader data' size) = Some (with_padding p h) →
  ∃ rv s1 s2,
    ParseFrameHeader data size (Some fs) sr cl sc s = Returns rv s1 ∧
    ParseFrameHeader data' size (Some fs) sr cl sc s = Returns rv s2 ∧
    written s1 = written s2 ∧
    ∀ a, a ≠ fs → heap s1 !! a = heap s2 !! a.
Proof.
  intros Hread Hread'.
  rewrite !ParseFrameHeader_summary. unfold summary. rewrite Hread, Hread'.
  rewrite accepts_with_padding.
  destruct (size <? 4); [by exists 0, s, s|].
  destruct (accepts h); [|by exists (-1), s, s].
  exists 4, (stored h fs sr cl sc s), (stored (with_padding p h) fs sr cl sc s).
  split_and!; [done | done | done |].
  intros a Ha. symmetry. by apply stored_with_padding_elsewhere.
Qed.

Lemma X10_padding_changes_frame_size_only_witness :
  ∃ rv s1 s2,
    ParseFrameHeader mp3_128k_44100 4 (Some 1%positive) (Some 2%positive)
      None None empty_state = Returns rv s1 ∧
    ParseFrameHeader [Byte.xff; Byte.xfb; Byte.x92; Byte.x00] 4
      (Some 1%positive) (Some 2%positive) None None empty_state
      = Returns rv s2 ∧
    written s1 = written s2 ∧
    ∀ a, a ≠ 1%positive → heap s1 !! a = heap s2 !! a.
Proof.
  apply (X10_padding_changes_frame_size_only mp3_128k_44100
           [Byte.xff; Byte.xfb; Byte.x92; Byte.x00] 4
           (mkHeader 0x7ff 3 1 1 9 0 0 0 0 0) 1).
  - vm_compute. reflexivity.
  - vm_compute. reflexivity.
Defined.
